(** * The staking keeper wrapper: [Delegate] and the two pool transfers

    A shallow embedding of [x/staking/keeper/keeper.go].  The wrapper embeds
    the SDK staking keeper and overrides one method, [Delegate]; everything the
    method touches besides its own control flow is reached through interfaces
    (address codecs, bank keeper, staking hooks) or through the embedded
    keeper.  Those collaborators are fields of the records below, so every
    result about [Delegate] holds for whatever implementation is plugged in.

    [ctx context.Context] carries the multistore: a call that receives [ctx] is
    a function on the world [W]; a call that does not (the codecs) is pure.
    Every call [Delegate] makes is appended to a log together with what it
    returned, so that "which calls happened, in which order, with which
    arguments" can be stated about a run.  A collaborator is taken to return: a
    panic raised inside one unwinds through [Delegate] untouched and is not
    part of the model.  The panics [Delegate] raises itself, and those of the
    value constructors it applies ([sdk.NewCoin], [sdk.NewCoins],
    [LegacyDec.Add]), are. *)

From Stdlib Require Import ZArith List String Ascii Bool Lia.
From Stdlib Require Import Sorted.
From Stdlib.Strings Require Import Byte.
Import ListNotations.
Open Scope string_scope.
Open Scope list_scope.
Open Scope Z_scope.

Set Implicit Arguments.

(** ** Values *)

Definition bytes := list byte.

(** Go's [error] interface: the two sentinels of the staking module that
    [Delegate] names, any other error value, and wrapping (the [Unwrap] chain
    that [errors.Is] follows).  A nil [error] is [None]. *)
Inductive error : Type :=
| ErrDelegatorShareExRateInvalid
| ErrNoDelegation
| ErrOther (msg : string)
| ErrWrap (msg : string) (cause : error).

Definition error_eq_dec (a b : error) : {a = b} + {a <> b}.
Proof. decide equality; apply string_dec. Defined.

Fixpoint errors_Is (err target : error) : bool :=
  if error_eq_dec err target then true
  else match err with
       | ErrWrap _ cause => errors_Is cause target
       | _ => false
       end.

(** The decimal and integer types of the imported [cosmossdk.io/math]. *)
Module math.

(** [math.Int]: an arbitrary-precision integer. *)
Definition Int := Z.

(** [math.LegacyDec] is a struct holding one [*big.Int], the value scaled by
    10^18.  [LegacyDec{}] holds the nil pointer, [LegacyZeroDec()] a pointer
    to 0: the two are different values. *)
Record LegacyDec : Type := mkDec { i : option Z }.

Definition LegacyZeroDec : LegacyDec := mkDec (Some 0).
Definition LegacyDecNil : LegacyDec := mkDec None.

(** [big.Int.BitLen]: length of the absolute value in bits, 0 for 0. *)
Definition BitLen (z : Z) : Z :=
  if z =? 0 then 0 else Z.log2 (Z.abs z) + 1.

(** [MaxBitLen + decimalTruncateBits], that is 256 + 59 *)
Definition maxDecBitLen : Z := 315.

(** [d.Add(d2)]: the sum on a fresh big integer; [None] is the abort of the
    library on a nil operand or on a sum wider than [maxDecBitLen] bits. *)
Definition Add (d d2 : LegacyDec) : option LegacyDec :=
  match i d, i d2 with
  | Some a, Some b =>
      if BitLen (a + b) >? maxDecBitLen then None
      else Some (mkDec (Some (a + b)))
  | _, _ => None
  end.

(** [d.IsPositive()]; decimals read from a validator record are never nil,
    a nil one counts as not positive here *)
Definition IsPositive (d : LegacyDec) : bool :=
  match i d with Some a => 0 <? a | None => false end.

Definition LegacyDec_eq_dec (a b : LegacyDec) : {a = b} + {a <> b}.
Proof. decide equality. decide equality. apply Z.eq_dec. Defined.

End math.

(** Addresses and coins of the imported SDK [types] package. *)
Module sdk.

Definition AccAddress := bytes.

Record Coin : Type := mkCoin { Denom : string; Amount : math.Int }.
Definition Coins := list Coin.

Definition isLetter (c : ascii) : bool :=
  let n := nat_of_ascii c in
  ((65 <=? n) && (n <=? 90) || (97 <=? n) && (n <=? 122))%nat.

Definition isDigit (c : ascii) : bool :=
  let n := nat_of_ascii c in ((48 <=? n) && (n <=? 57))%nat.

(** the characters of [/:._-] *)
Definition isDenomPunct (c : ascii) : bool :=
  let n := nat_of_ascii c in
  ((n =? 47) || (n =? 58) || (n =? 46) || (n =? 95) || (n =? 45))%nat.

(** [ValidateDenom]: the denomination matches
    [[a-zA-Z][a-zA-Z0-9/:._-]{2,127}]. *)
Definition ValidateDenom (d : string) : bool :=
  match d with
  | EmptyString => false
  | String c rest =>
      isLetter c
      && ((2 <=? String.length rest) && (String.length rest <=? 127))%nat
      && forallb (fun x => isLetter x || isDigit x || isDenomPunct x)
                 (list_ascii_of_string rest)
  end.

(** [NewCoin] validates what it builds and panics ([None]) on a malformed
    denomination or a negative amount. *)
Definition NewCoin (denom : string) (amount : math.Int) : option Coin :=
  if ValidateDenom denom && (0 <=? amount) then Some (mkCoin denom amount)
  else None.

Definition removeZeroCoins (cs : list Coin) : list Coin :=
  filter (fun c => negb (Amount c =? 0)) cs.

Fixpoint insertCoin (c : Coin) (cs : list Coin) : list Coin :=
  match cs with
  | [] => [c]
  | x :: rest =>
      if String.leb (Denom c) (Denom x) then c :: cs
      else x :: insertCoin c rest
  end.

Definition sortCoins (cs : list Coin) : list Coin :=
  fold_right insertCoin [] cs.

Definition validCoin (c : Coin) : bool :=
  ValidateDenom (Denom c) && (0 <? Amount c).

(** [Coins.Validate]: every coin valid and positive, denominations strictly
    increasing. *)
Fixpoint validCoins (cs : list Coin) : bool :=
  match cs with
  | [] => true
  | c :: rest =>
      validCoin c
      && match rest with
         | [] => true
         | c' :: _ => String.ltb (Denom c) (Denom c')
         end
      && validCoins rest
  end.

(** [NewCoins]: drop the zero coins, sort by denomination, and panic
    ([None]) when the result is not a valid set. *)
Definition NewCoins (cs : list Coin) : option Coins :=
  let newCoins := sortCoins (removeZeroCoins cs) in
  if validCoins newCoins then Some newCoins else None.

End sdk.

(** What [Delegate] uses of the SDK's staking [types]. *)
Module types.

(** Modelled from the spec: the bonding status and token source enum
    {Bonded, Unbonding, Unbonded} of the data model; in the SDK
    [type BondStatus int32], with [Unspecified] for 0. *)
Definition BondStatus := Z.
Definition Unspecified : BondStatus := 0.
Definition Unbonded : BondStatus := 1.
Definition Unbonding : BondStatus := 2.
Definition Bonded : BondStatus := 3.

(** Modelled from the spec: the names of the two pools, "bonded" and
    "not-bonded"; the strings are the SDK's module account names. *)
Definition BondedPoolName : string := "bonded_tokens_pool".
Definition NotBondedPoolName : string := "not_bonded_tokens_pool".

(** Modelled from the spec: the Validator record of the data model
    (operator address, bonding status, aggregate token total, aggregate
    share total); the struct itself is declared in the SDK's staking
    types. *)
Record Validator : Type := mkValidator {
  OperatorAddress : string;
  Status : BondStatus;
  Tokens : math.Int;
  DelegatorShares : math.LegacyDec
}.

Definition GetOperator (v : Validator) : string := OperatorAddress v.
Definition IsBonded (v : Validator) : bool := Status v =? Bonded.
Definition IsUnbonded (v : Validator) : bool := Status v =? Unbonded.
Definition IsUnbonding (v : Validator) : bool := Status v =? Unbonding.

(** Modelled from the spec: the exchange rate tokens/shares "becomes invalid
    when shares > 0 but tokens collapse to zero". *)
Definition InvalidExRate (v : Validator) : bool :=
  (Tokens v =? 0) && math.IsPositive (DelegatorShares v).

Record Delegation : Type := mkDelegation {
  DelegatorAddress : string;
  ValidatorAddress : string;
  Shares : math.LegacyDec
}.

Definition NewDelegation (delegatorAddr validatorAddr : string)
    (shares : math.LegacyDec) : Delegation :=
  mkDelegation delegatorAddr validatorAddr shares.

Definition setShares (d : Delegation) (s : math.LegacyDec) : Delegation :=
  mkDelegation (DelegatorAddress d) (ValidatorAddress d) s.

End types.

Import math sdk types.

(** ** The call log *)

(** One constructor per call [Delegate] and the two pool transfers can make;
    the last argument is what the call returned. *)
Inductive Event : Type :=
| EvStringToBytes (text : string) (r : bytes * option error)
| EvGetDelegation (del : AccAddress) (val : bytes)
    (r : Delegation * option error)
| EvBeforeDelegationSharesModified (del : AccAddress) (val : bytes)
    (r : option error)
| EvBytesToString (bz : bytes) (r : string * option error)
| EvBeforeDelegationCreated (del : AccAddress) (val : bytes)
    (r : option error)
| EvBondDenom (r : string * option error)
| EvDelegateCoinsFromAccountToModule (sender : AccAddress)
    (recipientModule : string) (amt : Coins) (r : option error)
| EvSendCoinsFromModuleToModule (senderModule recipientModule : string)
    (amt : Coins) (r : option error)
| EvAddValidatorTokensAndShares (v : Validator) (tokensToAdd : Int)
    (r : Validator * LegacyDec * option error)
| EvSetDelegation (d : Delegation) (r : option error)
| EvAfterDelegationModified (del : AccAddress) (val : bytes)
    (r : option error).

Definition Trace := list Event.

(** ** Collaborators *)

(** [addresscodec.Codec]: no [ctx], hence pure. *)
Record Codec : Type := {
  StringToBytes : string -> bytes * option error;
  BytesToString : bytes -> string * option error
}.

(** [types.AccountKeeper], of which only [AddressCodec()] is used. *)
Record AccountKeeper : Type := { AddressCodec : Codec }.

(** [types.BankKeeper], the ledger. *)
Record BankKeeper (W : Type) : Type := {
  DelegateCoinsFromAccountToModule :
    AccAddress -> string -> Coins -> W -> option error * W;
  SendCoinsFromModuleToModule :
    string -> string -> Coins -> W -> option error * W
}.

(** [types.StakingHooks], the three hooks [Delegate] fires. *)
Record StakingHooks (W : Type) : Type := {
  BeforeDelegationCreated : AccAddress -> bytes -> W -> option error * W;
  BeforeDelegationSharesModified :
    AccAddress -> bytes -> W -> option error * W;
  AfterDelegationModified : AccAddress -> bytes -> W -> option error * W
}.

(** What [Delegate] uses of the embedded [*stakingkeeper.Keeper]. *)
Record StakingKeeper (W : Type) : Type := {
  ValidatorAddressCodec : Codec;
  GetDelegation : AccAddress -> bytes -> W -> (Delegation * option error) * W;
  Hooks : StakingHooks W;
  BondDenom : W -> (string * option error) * W;
  AddValidatorTokensAndShares :
    Validator -> Int -> W -> (Validator * LegacyDec * option error) * W;
  SetDelegation : Delegation -> W -> option error * W
}.

(** [type Keeper struct { *stakingkeeper.Keeper; ak; bk; vac }] *)
Record Keeper (W : Type) : Type := {
  base :> StakingKeeper W;
  ak : AccountKeeper;
  bk : BankKeeper W;
  vac : Codec
}.

(** [NewKeeper]: the wrapper around a freshly built staking keeper, the
    validator codec stored a second time in [vac]. *)
Definition NewKeeper (W : Type) (newStakingKeeper : Codec -> StakingKeeper W)
    (ak : AccountKeeper) (bk : BankKeeper W)
    (validatorAddressCodec : Codec) : Keeper W :=
  {| base := newStakingKeeper validatorAddressCodec;
     ak := ak; bk := bk; vac := validatorAddressCodec |}.

(** ** Go function bodies: state, early [return], [panic] *)

Section Body.

Variable W : Type.

Definition State : Type := W * Trace.

(** What a statement does inside a function returning [R]: fall through
    with a value, [return], or [panic]. *)
Inductive Outcome (R A : Type) : Type :=
| Next (a : A) (s : State)
| Return (r : R) (s : State)
| Panic (msg : string) (s : State).

Definition M (R A : Type) : Type := State -> Outcome R A.

Definition ret {R A} (a : A) : M R A := fun s => Next R a s.
Definition return_ {R A} (r : R) : M R A := fun s => Return A r s.
Definition panic {R A} (msg : string) : M R A := fun s => Panic R A msg s.

Definition bind {R A B} (m : M R A) (f : A -> M R B) : M R B :=
  fun s =>
    match m s with
    | Next _ a s' => f a s'
    | Return _ r s' => Return B r s'
    | Panic _ _ msg s' => Panic R B msg s'
    end.

Definition skip {R} : M R unit := ret tt.

(** [if cond { stmt }] *)
Definition when {R} (cond : bool) (stmt : M R unit) : M R unit :=
  if cond then stmt else skip.

(** [if err != nil { return f(err) }] *)
Definition ifErr {R} (err : option error) (f : error -> R) : M R unit :=
  match err with
  | Some e => return_ (f e)
  | None => skip
  end.

(** a value constructor of the SDK that aborts instead of returning *)
Definition orPanic {R A} (msg : string) (o : option A) : M R A :=
  match o with
  | Some a => ret a
  | None => panic msg
  end.

(** a call that receives [ctx], logged with its result *)
Definition call {R A} (ev : A -> Event) (f : W -> A * W) : M R A :=
  fun s =>
    let '(a, w') := f (fst s) in Next R a (w', snd s ++ [ev a]).

(** a call that does not receive [ctx], logged with its result *)
Definition callPure {R A} (ev : A -> Event) (a : A) : M R A :=
  fun s => Next R a (fst s, snd s ++ [ev a]).

(** How a call of a function returning [R] ends. *)
Inductive Result (R : Type) : Type :=
| Returned (r : R) (s : State)
| Panicked (msg : string) (s : State).

Definition func {R} (body : M R R) : State -> Result R :=
  fun s =>
    match body s with
    | Next _ r s' => Returned r s'
    | Return _ r s' => Returned r s'
    | Panic _ _ msg s' => Panicked R msg s'
    end.

(** calling one such function from the body of another *)
Definition invoke {R R'} (f : State -> Result R') : M R R' :=
  fun s =>
    match f s with
    | Returned r s' => Next R r s'
    | Panicked _ msg s' => Panic R R' msg s'
    end.

End Body.

Arguments Next {W R A}.
Arguments Return {W R A}.
Arguments Panic {W R A}.
Arguments Returned {W R}.
Arguments Panicked {W R}.
Arguments ret {W R A}.
Arguments return_ {W R A}.
Arguments panic {W R A}.
Arguments skip {W R}.
Arguments when {W R}.
Arguments ifErr {W R}.
Arguments orPanic {W R A}.
Arguments call {W R A}.
Arguments callPure {W R A}.
Arguments func {W R}.
Arguments invoke {W R R'}.

Declare Scope go_scope.
Delimit Scope go_scope with go.
Notation "x <- c1 ;; c2" := (bind c1 (fun x => c2))
  (at level 61, c1 at next level, right associativity) : go_scope.
Notation "' pat <- c1 ;; c2" :=
  (bind c1 (fun x => match x with pat => c2 end))
  (at level 61, pat pattern, c1 at next level, right associativity) : go_scope.
Notation "c1 ;; c2" := (bind c1 (fun _ => c2))
  (at level 61, right associativity) : go_scope.

(** ** The keeper's methods *)

Section Methods.

Variable W : Type.
Variable k : Keeper W.

Local Open Scope go_scope.

(** [bondedTokensToNotBonded] transfers coins from the bonded to the not
    bonded pool within staking. *)
Definition bondedTokensToNotBonded (tokens : Int)
    : State W -> Result W (option error) :=
  func (
    '(bondDenom, err) <- call EvBondDenom (BondDenom k) ;;
    ifErr err (fun e => Some e) ;;
    coin <- orPanic "NewCoin" (NewCoin bondDenom tokens) ;;
    coins <- orPanic "NewCoins" (NewCoins [coin]) ;;
    err <- call (EvSendCoinsFromModuleToModule
                   BondedPoolName NotBondedPoolName coins)
             (SendCoinsFromModuleToModule (bk k)
                BondedPoolName NotBondedPoolName coins) ;;
    return_ err).

(** [notBondedTokensToBonded] transfers coins from the not bonded to the
    bonded pool within staking. *)
Definition notBondedTokensToBonded (tokens : Int)
    : State W -> Result W (option error) :=
  func (
    '(bondDenom, err) <- call EvBondDenom (BondDenom k) ;;
    ifErr err (fun e => Some e) ;;
    coin <- orPanic "NewCoin" (NewCoin bondDenom tokens) ;;
    coins <- orPanic "NewCoins" (NewCoins [coin]) ;;
    err <- call (EvSendCoinsFromModuleToModule
                   NotBondedPoolName BondedPoolName coins)
             (SendCoinsFromModuleToModule (bk k)
                NotBondedPoolName BondedPoolName coins) ;;
    return_ err).

(** [Delegate] performs a delegation, set/update everything necessary
    within the store.  [tokenSrc] indicates the bond status of the incoming
    funds. *)
Definition Delegate (delAddr : AccAddress) (bondAmt : Int)
    (tokenSrc : BondStatus) (validator : Validator)
    (subtractAccount : bool)
    : State W -> Result W (LegacyDec * option error) :=
  func (
    when (InvalidExRate validator)
      (return_ (LegacyZeroDec, Some ErrDelegatorShareExRateInvalid)) ;;

    '(valbz, err) <-
      callPure (EvStringToBytes (GetOperator validator))
        (StringToBytes (ValidatorAddressCodec k) (GetOperator validator)) ;;
    ifErr err (fun e => (LegacyZeroDec, Some e)) ;;

    '(delegation, err) <-
      call (EvGetDelegation delAddr valbz) (GetDelegation k delAddr valbz) ;;
    '(delegation, err) <-
      match err with
      | None =>
          err <- call (EvBeforeDelegationSharesModified delAddr valbz)
                   (BeforeDelegationSharesModified (Hooks k) delAddr valbz) ;;
          ret (delegation, err)
      | Some e =>
          if errors_Is e ErrNoDelegation then
            '(delAddrStr, err1) <-
              callPure (EvBytesToString delAddr)
                (BytesToString (AddressCodec (ak k)) delAddr) ;;
            ifErr err1 (fun e1 => (LegacyDecNil, Some e1)) ;;
            let delegation :=
              NewDelegation delAddrStr (GetOperator validator)
                LegacyZeroDec in
            err <- call (EvBeforeDelegationCreated delAddr valbz)
                     (BeforeDelegationCreated (Hooks k) delAddr valbz) ;;
            ret (delegation, err)
          else
            return_ (LegacyZeroDec, Some e)
      end ;;
    ifErr err (fun e => (LegacyZeroDec, Some e)) ;;

    (if subtractAccount then
       when (tokenSrc =? Bonded)
         (panic "delegation token source cannot be bonded") ;;
       sendName <-
         (if IsBonded validator then ret BondedPoolName
          else if IsUnbonding validator || IsUnbonded validator
               then ret NotBondedPoolName
          else panic "invalid validator status") ;;
       '(bondDenom, err) <- call EvBondDenom (BondDenom k) ;;
       ifErr err (fun e => (LegacyDecNil, Some e)) ;;
       coin <- orPanic "NewCoin" (NewCoin bondDenom bondAmt) ;;
       coins <- orPanic "NewCoins" (NewCoins [coin]) ;;
       err <- call (EvDelegateCoinsFromAccountToModule
                      delAddr sendName coins)
                (DelegateCoinsFromAccountToModule (bk k)
                   delAddr sendName coins) ;;
       ifErr err (fun e => (LegacyDecNil, Some e))
     else
       if (tokenSrc =? Bonded) && IsBonded validator then
         skip
       else if ((tokenSrc =? Unbonded) || (tokenSrc =? Unbonding))
               && negb (IsBonded validator) then
         skip
       else if ((tokenSrc =? Unbonded) || (tokenSrc =? Unbonding))
               && IsBonded validator then
         err <- invoke (notBondedTokensToBonded bondAmt) ;;
         ifErr err (fun e => (LegacyDecNil, Some e))
       else if (tokenSrc =? Bonded) && negb (IsBonded validator) then
         err <- invoke (bondedTokensToNotBonded bondAmt) ;;
         ifErr err (fun e => (LegacyDecNil, Some e))
       else
         panic "unknown token source bond status") ;;

    '(_, newShares, err) <-
      call (EvAddValidatorTokensAndShares validator bondAmt)
        (AddValidatorTokensAndShares k validator bondAmt) ;;
    ifErr err (fun e => (newShares, Some e)) ;;

    shares <- orPanic "LegacyDec.Add" (Add (Shares delegation) newShares) ;;
    let delegation := setShares delegation shares in
    err <- call (EvSetDelegation delegation) (SetDelegation k delegation) ;;
    ifErr err (fun e => (newShares, Some e)) ;;

    err <- call (EvAfterDelegationModified delAddr valbz)
             (AfterDelegationModified (Hooks k) delAddr valbz) ;;
    ifErr err (fun e => (newShares, Some e)) ;;

    return_ (newShares, None)).

(** A run from world [w] with an empty log. *)
Definition run (delAddr : AccAddress) (bondAmt : Int)
    (tokenSrc : BondStatus) (validator : Validator)
    (subtractAccount : bool) (w : W)
    : Result W (LegacyDec * option error) :=
  Delegate delAddr bondAmt tokenSrc validator subtractAccount (w, []).

End Methods.

Arguments bondedTokensToNotBonded {W}.
Arguments notBondedTokensToBonded {W}.
Arguments Delegate {W}.
Arguments run {W}.

(** ** Reading a run *)

Definition logOf {W R} (res : Result W R) : Trace :=
  match res with
  | Returned _ s => snd s
  | Panicked _ s => snd s
  end.

Definition worldOf {W R} (res : Result W R) : W :=
  match res with
  | Returned _ s => fst s
  | Panicked _ s => fst s
  end.

(** a call of the ledger (bank keeper) *)
Definition isLedger (e : Event) : bool :=
  match e with
  | EvDelegateCoinsFromAccountToModule _ _ _ _ => true
  | EvSendCoinsFromModuleToModule _ _ _ _ => true
  | _ => false
  end.

(** a call that writes staking records: share minting, [SetDelegation] *)
Definition isStoreWrite (e : Event) : bool :=
  match e with
  | EvAddValidatorTokensAndShares _ _ _ => true
  | EvSetDelegation _ _ => true
  | _ => false
  end.

Definition isHook (e : Event) : bool :=
  match e with
  | EvBeforeDelegationSharesModified _ _ _ => true
  | EvBeforeDelegationCreated _ _ _ => true
  | EvAfterDelegationModified _ _ _ => true
  | _ => false
  end.

Definition ledgerCalls (t : Trace) : Trace := filter isLedger t.

(** the pre-hook of step 3 returned nil: the liquidity step is entered *)
Definition preHookPassed (e : Event) : bool :=
  match e with
  | EvBeforeDelegationSharesModified _ _ None => true
  | EvBeforeDelegationCreated _ _ None => true
  | _ => false
  end.


(** [Coins.AmountOf] *)
Fixpoint AmountOf (cs : Coins) (denom : string) : Int :=
  match cs with
  | [] => 0
  | c :: rest =>
      if String.eqb (Denom c) denom then Amount c else AmountOf rest denom
  end.

(** the recognised bonding statuses *)
Definition knownStatus (s : BondStatus) : bool :=
  (s =? Bonded) || (s =? Unbonding) || (s =? Unbonded).

(** Modelled from the spec: the share minting primitive of section 4.3, which
    lives in the embedded SDK keeper: "shares = amount / exchange-rate" at the
    validator's rate before the call, a validator without shares trading at
    rate one (the scenario of section 8); [None] when the division would be
    by a zero token total. *)
Definition SharesFromTokens (v : Validator) (amt : Int) : option LegacyDec :=
  match i (DelegatorShares v) with
  | None => None
  | Some sh =>
      if sh =? 0 then Some (mkDec (Some (amt * 10 ^ 18)))
      else if Tokens v =? 0 then None
      else Some (mkDec (Some (sh * amt / Tokens v)))
  end.

(** Modelled from the spec: "updates the validator's aggregate token/share
    totals" (section 2). *)
Definition AddTokensFromDel (v : Validator) (amt : Int)
    : option (Validator * LegacyDec) :=
  match SharesFromTokens v amt with
  | None => None
  | Some issued =>
      match Add (DelegatorShares v) issued with
      | None => None
      | Some total =>
          Some (mkValidator (OperatorAddress v) (Status v)
                  (Tokens v + amt) total, issued)
      end
  end.

(** A call that went well: no error came back (a lookup may report the
    [ErrNoDelegation] sentinel), and what came back is well formed: a
    denomination that is one, a stored share balance that [Add] accepts, and
    minted shares that follow the primitive's contract. *)
Definition callOk (e : Event) : bool :=
  match e with
  | EvStringToBytes _ (_, err) => match err with None => true | _ => false end
  | EvGetDelegation _ _ (d, None) =>
      match i (Shares d) with
      | Some a => BitLen a <=? maxDecBitLen
      | None => false
      end
  | EvGetDelegation _ _ (_, Some err) => errors_Is err ErrNoDelegation
  | EvBytesToString _ (_, err) => match err with None => true | _ => false end
  | EvBondDenom (d, None) => ValidateDenom d
  | EvAddValidatorTokensAndShares v amt (v', s, None) =>
      match AddTokensFromDel v amt with
      | Some (v1, s1) =>
          if LegacyDec_eq_dec s s1 then
            (Tokens v' =? Tokens v1)
            && (if LegacyDec_eq_dec (DelegatorShares v') (DelegatorShares v1)
                then true else false)
          else false
      | None => false
      end
  | EvBeforeDelegationSharesModified _ _ None => true
  | EvBeforeDelegationCreated _ _ None => true
  | EvDelegateCoinsFromAccountToModule _ _ _ None => true
  | EvSendCoinsFromModuleToModule _ _ _ None => true
  | EvSetDelegation _ None => true
  | EvAfterDelegationModified _ _ None => true
  | _ => false
  end.

(** the combinations of token source, validator status and
    [subtractAccount] on which [Delegate] does not panic *)
Definition legalCombination (tokenSrc : BondStatus) (v : Validator)
    (subtractAccount : bool) : bool :=
  if subtractAccount then negb (tokenSrc =? Bonded) && knownStatus (Status v)
  else knownStatus tokenSrc.

(** ** A reference implementation of the collaborators *)

(** Modelled from the spec: the collaborators of section 6 (Ledger Port,
    Record Store, hooks, bonding denomination lookup) and the address codecs,
    none of which lives in this repository.  A small in-memory world: enough
    to run [Delegate] on concrete inputs. *)
Module Ref.

Record World : Type := mkWorld {
  delegations : list (bytes * bytes * Delegation);
  validators : list Validator;
  accounts : list (bytes * Z);
  pools : list (string * Z);
  bondDenom : option string
}.

Definition bytes_eqb (a b : bytes) : bool :=
  if list_eq_dec byte_eq_dec a b then true else false.

Fixpoint lookup {K V} (eqb : K -> K -> bool) (key : K) (l : list (K * V))
    : option V :=
  match l with
  | [] => None
  | (k', v) :: rest => if eqb key k' then Some v else lookup eqb key rest
  end.

Fixpoint update {K V} (eqb : K -> K -> bool) (key : K) (v : V)
    (l : list (K * V)) : list (K * V) :=
  match l with
  | [] => [(key, v)]
  | (k', v') :: rest =>
      if eqb key k' then (key, v) :: rest
      else (k', v') :: update eqb key v rest
  end.

(** Modelled from the spec: the address-encoding layer (sections 1 and 4.1,
    "AddressDecodeError" / "AddressEncodeError" on malformed input).  Text
    and bytes carry the same octets; the empty address is malformed in both
    directions. *)
Definition codec : Codec :=
  {| StringToBytes := fun text =>
       match text with
       | EmptyString =>
           ([], Some (ErrOther "empty address string is not allowed"))
       | _ => (list_byte_of_string text, None)
       end;
     BytesToString := fun bz =>
       match bz with
       | [] => ("", Some (ErrOther "empty address bytes"))
       | _ => (string_of_list_byte bz, None)
       end |}.

Definition accountKeeper : AccountKeeper := {| AddressCodec := codec |}.

Definition pair_eqb (a b : bytes * bytes) : bool :=
  bytes_eqb (fst a) (fst b) && bytes_eqb (snd a) (snd b).

(** Modelled from the spec: Record Store, "GetDelegation(delegator,
    validatorOperatorBytes) -> (Delegation, found-or-NoDelegation-error)". *)
Definition getDelegation (del : AccAddress) (val : bytes) (w : World)
    : (Delegation * option error) * World :=
  match lookup pair_eqb (del, val) (delegations w) with
  | Some d => ((d, None), w)
  | None => ((mkDelegation "" "" LegacyDecNil, Some ErrNoDelegation), w)
  end.

(** Modelled from the spec: Record Store, "SetDelegation(Delegation) ->
    error"; the record is filed under the bytes of its two addresses. *)
Definition setDelegation (d : Delegation) (w : World)
    : option error * World :=
  match StringToBytes codec (DelegatorAddress d),
        StringToBytes codec (ValidatorAddress d) with
  | (del, None), (val, None) =>
      (None,
       mkWorld (update pair_eqb (del, val) d (delegations w))
         (validators w) (accounts w) (pools w) (bondDenom w))
  | (_, Some e), _ => (Some e, w)
  | _, (_, Some e) => (Some e, w)
  end.

(** Modelled from the spec: "BondDenom() -> (string, error)", failing when
    the denomination is unconfigured. *)
Definition getBondDenom (w : World) : (string * option error) * World :=
  match bondDenom w with
  | Some d => ((d, None), w)
  | None => (("", Some (ErrOther "bond denomination is not set")), w)
  end.

Fixpoint setValidator (v : Validator) (l : list Validator)
    : list Validator :=
  match l with
  | [] => [v]
  | x :: rest =>
      if String.eqb (OperatorAddress x) (OperatorAddress v) then v :: rest
      else x :: setValidator v rest
  end.

(** Modelled from the spec: the share minting primitive of section 4.3 on
    the store: mint by [AddTokensFromDel], write the validator back, "return
    error, not panic" when the division has no answer. *)
Definition addValidatorTokensAndShares (v : Validator) (amt : Int)
    (w : World) : (Validator * LegacyDec * option error) * World :=
  match AddTokensFromDel v amt with
  | Some (v', issued) =>
      ((v', issued, None),
       mkWorld (delegations w) (setValidator v' (validators w))
         (accounts w) (pools w) (bondDenom w))
  | None => ((v, LegacyDecNil, Some (ErrOther "insufficient shares")), w)
  end.

Definition balanceOf {K} (eqb : K -> K -> bool) (key : K)
    (l : list (K * Z)) : Z :=
  match lookup eqb key l with Some b => b | None => 0 end.

Definition total (w : World) (amt : Coins) : Z :=
  match bondDenom w with
  | Some d => AmountOf amt d
  | None => 0
  end.

(** Modelled from the spec: Ledger Port, "TransferFromAccountToPool(account,
    poolName, denom, amount) -> error", all or nothing. *)
Definition delegateCoinsFromAccountToModule (sender : AccAddress)
    (recipientModule : string) (amt : Coins) (w : World)
    : option error * World :=
  let n := total w amt in
  if balanceOf bytes_eqb sender (accounts w) <? n then
    (Some (ErrOther "insufficient funds"), w)
  else
    (None,
     mkWorld (delegations w) (validators w)
       (update bytes_eqb sender
          (balanceOf bytes_eqb sender (accounts w) - n) (accounts w))
       (update String.eqb recipientModule
          (balanceOf String.eqb recipientModule (pools w) + n) (pools w))
       (bondDenom w)).

(** Modelled from the spec: Ledger Port, "TransferBetweenPools(srcPool,
    dstPool, denom, amount) -> error", all or nothing. *)
Definition sendCoinsFromModuleToModule (senderModule recipientModule : string)
    (amt : Coins) (w : World) : option error * World :=
  let n := total w amt in
  if balanceOf String.eqb senderModule (pools w) <? n then
    (Some (ErrOther "insufficient funds"), w)
  else
    let pools' :=
      update String.eqb senderModule
        (balanceOf String.eqb senderModule (pools w) - n) (pools w) in
    (None,
     mkWorld (delegations w) (validators w) (accounts w)
       (update String.eqb recipientModule
          (balanceOf String.eqb recipientModule pools' + n) pools')
       (bondDenom w)).

Definition bankKeeper : BankKeeper World :=
  {| DelegateCoinsFromAccountToModule := delegateCoinsFromAccountToModule;
     SendCoinsFromModuleToModule := sendCoinsFromModuleToModule |}.

(** Modelled from the spec: the three synchronous hooks of section 6; these
    leave the world alone and answer with the given results. *)
Definition hooks (created modified after : option error)
    : StakingHooks World :=
  {| BeforeDelegationCreated := fun _ _ w => (created, w);
     BeforeDelegationSharesModified := fun _ _ w => (modified, w);
     AfterDelegationModified := fun _ _ w => (after, w) |}.

Definition stakingKeeper (h : StakingHooks World) (vac : Codec)
    : StakingKeeper World :=
  {| ValidatorAddressCodec := vac;
     GetDelegation := getDelegation;
     Hooks := h;
     BondDenom := getBondDenom;
     AddValidatorTokensAndShares := addValidatorTokensAndShares;
     SetDelegation := setDelegation |}.

Definition keeper (h : StakingHooks World) : Keeper World :=
  NewKeeper (stakingKeeper h) accountKeeper bankKeeper codec.

Definition quiet : Keeper World := keeper (hooks None None None).

(** the inputs of the scenarios of section 8 *)
Definition D : AccAddress := list_byte_of_string "delegator1".
Definition opV : string := "validator1".

Definition one : Z := 10 ^ 18.

Definition V (status : BondStatus) : Validator :=
  mkValidator opV status 1000 (mkDec (Some (1000 * one))).

(** the same validator once 100 more tokens are delegated to it *)
Definition V' (status : BondStatus) : Validator :=
  mkValidator opV status 1100 (mkDec (Some (1100 * one))).

Definition w0 : World :=
  mkWorld [] [V Bonded] [(D, 500)]
    [(BondedPoolName, 1000); (NotBondedPoolName, 200)] (Some "aevmos").

(** [w0] after [D] has delegated 100 to [V] *)
Definition w1 : World :=
  mkWorld
    [((D, list_byte_of_string opV),
      mkDelegation "delegator1" opV (mkDec (Some (100 * one))))]
    [V' Unbonding]
    [(D, 400)]
    [(BondedPoolName, 1100); (NotBondedPoolName, 200)] (Some "aevmos").

End Ref.

(** ** Statements about a log *)



(** one of the four combinations the rebalance [switch] enumerates *)
Definition enumeratedCase (tokenSrc : BondStatus) (v : Validator) : bool :=
  (tokenSrc =? Bonded) && IsBonded v
  || ((tokenSrc =? Unbonded) || (tokenSrc =? Unbonding)) && negb (IsBonded v)
  || ((tokenSrc =? Unbonded) || (tokenSrc =? Unbonding)) && IsBonded v
  || (tokenSrc =? Bonded) && negb (IsBonded v).

(** the run panicked with [msg], having called neither the ledger nor a
    writer of staking records *)
Definition abortsWith {W R} (msg : string) (res : Result W R) : Prop :=
  exists s,
    res = Panicked msg s
    /\ ledgerCalls (snd s) = [] /\ filter isStoreWrite (snd s) = [].

(** the run got past step 3: its pre-hook returned nil *)
Definition reachedLiquidity (log : Trace) : Prop :=
  exists e, In e log /\ preHookPassed e = true.

(** the run returned [(dec, e)] with nothing logged after [rest] began, and
    without any ledger call or store write *)
Definition stopsWith {W} (dec : LegacyDec) (e : error)
    (res : Result W (LegacyDec * option error)) (rest : Trace) : Prop :=
  rest = []
  /\ (exists s, res = Returned (dec, Some e) s)
  /\ ledgerCalls (logOf res) = []
  /\ filter isStoreWrite (logOf res) = [].

(** the delegation [Delegate] holds after step 3: the one the lookup
    returned, or a new zero-share one for the encoded delegator address *)
Definition inHand (del : AccAddress) (v : Validator) (d0 : Delegation)
    (log : Trace) : Prop :=
  (exists valbz, In (EvGetDelegation del valbz (d0, None)) log)
  \/ (exists str,
        In (EvBytesToString del (str, None)) log
        /\ d0 = NewDelegation str (GetOperator v) LegacyZeroDec).

(** Which decimal comes back with which failure, read off the log from its
    last call backwards: the call that failed is the last one logged. *)
Definition failureTable (reversedLog : Trace) (shares : LegacyDec)
    (err : error) : Prop :=
  match reversedLog with
  | [] => shares = LegacyZeroDec /\ err = ErrDelegatorShareExRateInvalid
  | EvStringToBytes _ (_, r) :: _ => shares = LegacyZeroDec /\ r = Some err
  | EvGetDelegation _ _ (_, r) :: _ => shares = LegacyZeroDec /\ r = Some err
  | EvBeforeDelegationSharesModified _ _ r :: _ =>
      shares = LegacyZeroDec /\ r = Some err
  | EvBeforeDelegationCreated _ _ r :: _ =>
      shares = LegacyZeroDec /\ r = Some err
  | EvBytesToString _ (_, r) :: _ => shares = LegacyDecNil /\ r = Some err
  | EvBondDenom (_, r) :: _ => shares = LegacyDecNil /\ r = Some err
  | EvDelegateCoinsFromAccountToModule _ _ _ r :: _ =>
      shares = LegacyDecNil /\ r = Some err
  | EvSendCoinsFromModuleToModule _ _ _ r :: _ =>
      shares = LegacyDecNil /\ r = Some err
  | EvAddValidatorTokensAndShares _ _ (_, newShares, r) :: _ =>
      shares = newShares /\ r = Some err
  | EvSetDelegation _ r
    :: EvAddValidatorTokensAndShares _ _ (_, newShares, None) :: _ =>
      shares = newShares /\ r = Some err
  | EvAfterDelegationModified _ _ r :: EvSetDelegation _ None
    :: EvAddValidatorTokensAndShares _ _ (_, newShares, None) :: _ =>
      shares = newShares /\ r = Some err
  | _ => False
  end.

(** ** Concrete inputs *)

(** a validator slashed to zero tokens with shares outstanding *)
Definition slashed : Validator :=
  mkValidator Ref.opV Bonded 0 (mkDec (Some Ref.one)).

Definition failingPostHook : Keeper Ref.World :=
  Ref.keeper (Ref.hooks None None (Some (ErrOther "hook failed"))).

Definition failingCreateHook : Keeper Ref.World :=
  Ref.keeper (Ref.hooks (Some (ErrOther "hook failed")) None None).

Definition valbzV : bytes := list_byte_of_string Ref.opV.

(** ** Further statements about a log *)

(** the place of a call in the sequence of [Delegate]'s steps *)
Definition stage (e : Event) : nat :=
  match e with
  | EvStringToBytes _ _ => 0
  | EvGetDelegation _ _ _ => 1
  | EvBytesToString _ _ => 2
  | EvBeforeDelegationSharesModified _ _ _ => 3
  | EvBeforeDelegationCreated _ _ _ => 3
  | EvBondDenom _ => 4
  | EvDelegateCoinsFromAccountToModule _ _ _ _ => 5
  | EvSendCoinsFromModuleToModule _ _ _ _ => 5
  | EvAddValidatorTokensAndShares _ _ _ => 6
  | EvSetDelegation _ _ => 7
  | EvAfterDelegationModified _ _ _ => 8
  end.

(** the error a call came back with *)
Definition eventError (e : Event) : option error :=
  match e with
  | EvStringToBytes _ (_, r) => r
  | EvGetDelegation _ _ (_, r) => r
  | EvBeforeDelegationSharesModified _ _ r => r
  | EvBytesToString _ (_, r) => r
  | EvBeforeDelegationCreated _ _ r => r
  | EvBondDenom (_, r) => r
  | EvDelegateCoinsFromAccountToModule _ _ _ r => r
  | EvSendCoinsFromModuleToModule _ _ _ r => r
  | EvAddValidatorTokensAndShares _ _ (_, _, r) => r
  | EvSetDelegation _ r => r
  | EvAfterDelegationModified _ _ r => r
  end.

(** the call came back with an error that [Delegate] returns: any error,
    but for a lookup one that [errors.Is] does not take for
    [ErrNoDelegation] *)
Definition failed (e : Event) : bool :=
  match e with
  | EvGetDelegation _ _ (_, Some err) => negb (errors_Is err ErrNoDelegation)
  | _ => match eventError e with Some _ => true | None => false end
  end.

(** the end of an error's [Unwrap] chain *)
Fixpoint rootCause (e : error) : error :=
  match e with
  | ErrWrap _ cause => rootCause cause
  | _ => e
  end.

(** what [NewCoins(NewCoin(denom, amt))] holds for a non-negative amount *)
Definition coinSet (denom : string) (amt : Int) : Coins :=
  if amt =? 0 then [] else [mkCoin denom amt].

(** the coins a ledger call moves *)
Definition coinsOf (e : Event) : Coins :=
  match e with
  | EvDelegateCoinsFromAccountToModule _ _ amt _ => amt
  | EvSendCoinsFromModuleToModule _ _ amt _ => amt
  | _ => []
  end.

(** Every call of the log is made on the arguments [Delegate] was given:
    the operator text of the validator, the delegator address, the operator
    bytes the codec returned, the validator snapshot and the amount. *)
Definition wellAddressed (del : AccAddress) (v : Validator) (amt : Int)
    (log : Trace) : Prop :=
  forall e, In e log ->
    match e with
    | EvStringToBytes text _ => text = GetOperator v
    | EvGetDelegation d val _
    | EvBeforeDelegationSharesModified d val _
    | EvBeforeDelegationCreated d val _
    | EvAfterDelegationModified d val _ =>
        d = del /\ In (EvStringToBytes (GetOperator v) (val, None)) log
    | EvBytesToString bz _ => bz = del
    | EvDelegateCoinsFromAccountToModule sender _ _ _ => sender = del
    | EvAddValidatorTokensAndShares v' a _ => v' = v /\ a = amt
    | _ => True
    end.

(** a world whose bonding denomination is not configured *)
Definition unconfigured : Ref.World :=
  Ref.mkWorld [] [Ref.V Bonded] [(Ref.D, 500)]
    [(BondedPoolName, 1000); (NotBondedPoolName, 200)] None.

(** a validator whose operator address is empty *)
Definition nameless : Validator :=
  mkValidator "" Bonded 1000 (mkDec (Some (1000 * Ref.one))).

(** the reference keeper behind a store layer that wraps its errors *)
Definition wrappingStore : Keeper Ref.World :=
  NewKeeper
    (fun vac =>
       {| ValidatorAddressCodec := vac;
          GetDelegation := fun del val w =>
            match Ref.getDelegation del val w with
            | ((d, Some e), w') => ((d, Some (ErrWrap "store" e)), w')
            | found => found
            end;
          Hooks := Ref.hooks None None None;
          BondDenom := Ref.getBondDenom;
          AddValidatorTokensAndShares := Ref.addValidatorTokensAndShares;
          SetDelegation := Ref.setDelegation |})
    Ref.accountKeeper Ref.bankKeeper Ref.codec.

Unset Implicit Arguments.

(** ** Symbolic execution of a run *)

Ltac unfold_go :=
  unfold run, Delegate, notBondedTokensToBonded, bondedTokensToNotBonded,
    func, invoke, bind, call, callPure, ifErr, when, skip, orPanic,
    ret, return_, panic in *.

(** split on the innermost scrutinee that blocks reduction *)
Ltac split_scrutinee :=
  match goal with
  | |- context [match ?x with _ => _ end] =>
      lazymatch x with
      | context [match _ with _ => _ end] => fail
      | _ => destruct x eqn:?
      end
  end.

Ltac reduce := cbn [fst snd app logOf worldOf] in *.

Ltac exec := unfold_go; reduce; repeat (split_scrutinee; reduce).

(** boolean conditions of the source, as propositions *)
Ltac conds :=
  unfold IsBonded, IsUnbonding, IsUnbonded, knownStatus,
    Bonded, Unbonding, Unbonded, Unspecified in *;
  repeat match goal with
    | H : _ && _ = true |- _ => apply andb_true_iff in H; destruct H
    | H : _ || _ = false |- _ => apply orb_false_iff in H; destruct H
    | H : negb _ = true |- _ => apply negb_true_iff in H
    | H : negb _ = false |- _ => apply negb_false_iff in H
    | H : (_ =? _) = true |- _ => apply Z.eqb_eq in H
    | H : (_ =? _) = false |- _ => apply Z.eqb_neq in H
    | H : _ /\ _ |- _ => destruct H
    end.

Ltac conds_split :=
  conds;
  repeat match goal with
    | H : _ && _ = false |- _ => apply andb_false_iff in H; destruct H; conds
    | H : _ || _ = true |- _ => apply orb_true_iff in H; destruct H; conds
    | H : _ \/ _ |- _ => destruct H; conds
    end.

(** ** Coins *)

Lemma NewCoin_inv (d : string) (amt : Int) (c : Coin) :
  NewCoin d amt = Some c ->
  c = mkCoin d amt /\ ValidateDenom d = true /\ 0 <= amt.
Proof.
  unfold NewCoin. destruct (ValidateDenom d); cbn; [|discriminate].
  destruct (0 <=? amt) eqn:E; [|discriminate].
  intros [= <-]. apply Z.leb_le in E. auto.
Qed.



(** identify two results of the same call *)
Ltac same_results :=
  repeat match goal with
    | H1 : ?x = Some _, H2 : ?x = Some _ |- _ =>
        rewrite H1 in H2; inversion H2; subst; clear H2
    | H1 : ?x = None, H2 : ?x = Some _ |- _ =>
        rewrite H1 in H2; discriminate H2
    end.

(** go through the members of a concrete log *)
Ltac members H :=
  cbn in H;
  repeat (destruct H as [H | H];
          [first [ discriminate H
                 | match type of H with _ = ?v => is_var v; subst v end
                 | injection H; intros; subst ] |]);
  try contradiction.

Lemma enumeratedCase_known (tokenSrc : BondStatus) (v : Validator) :
  enumeratedCase tokenSrc v = knownStatus tokenSrc.
Proof.
  unfold enumeratedCase, knownStatus.
  destruct (tokenSrc =? Bonded), (tokenSrc =? Unbonded),
    (tokenSrc =? Unbonding), (IsBonded v); reflexivity.
Qed.

(** ** Positions in a log *)

Lemma nil_app_split {A} (pre post : list A) (e : A) :
  [] = pre ++ e :: post -> False.
Proof. destruct pre; discriminate. Qed.

Lemma cons_app_split {A} (x : A) (l pre post : list A) (e : A) :
  x :: l = pre ++ e :: post ->
  (pre = [] /\ x = e /\ l = post)
  \/ exists pre', pre = x :: pre' /\ l = pre' ++ e :: post.
Proof.
  destruct pre as [|y pre']; cbn; intros [= -> ->].
  - left; auto.
  - right; eauto.
Qed.

(** enumerate the positions of an event in a concrete log *)
Ltac positions H :=
  repeat first
    [ apply nil_app_split in H; contradiction
    | apply cons_app_split in H;
      destruct H as [(-> & H & <-) | (? & -> & H)];
      [ first [ discriminate H
              | match type of H with _ = ?v => is_var v; subst v end
              | injection H; intros; subst; clear H ] |] ].

Lemma Add_value (a b sum : LegacyDec) :
  Add a b = Some sum ->
  exists x y, i a = Some x /\ i b = Some y /\ i sum = Some (x + y).
Proof.
  unfold Add. destruct (i a) as [x|], (i b) as [y|]; try discriminate.
  destruct (BitLen (x + y) >? maxDecBitLen); [discriminate|].
  intros [= <-]. exists x, y. auto.
Qed.

(** ** Minting nothing *)

Lemma Add_dec_zero (sh : Z) :
  Add (mkDec (Some sh)) (mkDec (Some 0))
  = if BitLen sh >? maxDecBitLen then None else Some (mkDec (Some sh)).
Proof. unfold Add; cbn [i]. rewrite Z.add_0_r. reflexivity. Qed.

Lemma AddTokensFromDel_zero (v v1 : Validator) (s1 : LegacyDec) :
  AddTokensFromDel v 0 = Some (v1, s1) ->
  s1 = LegacyZeroDec
  /\ Tokens v1 = Tokens v /\ DelegatorShares v1 = DelegatorShares v.
Proof.
  unfold AddTokensFromDel, SharesFromTokens.
  destruct v as [op st tk [[sh|]]];
    cbn [i DelegatorShares Tokens OperatorAddress Status]; [|discriminate].
  assert (Hissued :
    (if sh =? 0 then Some (mkDec (Some (0 * 10 ^ 18)))
     else if tk =? 0 then None else Some (mkDec (Some (sh * 0 / tk))))
    = Some LegacyZeroDec
    \/ (if sh =? 0 then Some (mkDec (Some (0 * 10 ^ 18)))
        else if tk =? 0 then None else Some (mkDec (Some (sh * 0 / tk))))
       = None).
  { destruct (sh =? 0); [left; reflexivity|].
    destruct (tk =? 0); [right; reflexivity|].
    left. rewrite Z.mul_0_r, Zdiv_0_l. reflexivity. }
  destruct Hissued as [-> | ->]; [|discriminate].
  unfold LegacyZeroDec. rewrite Add_dec_zero.
  destruct (BitLen sh >? maxDecBitLen); [discriminate|].
  intros [= <- <-]. cbn. rewrite Z.add_0_r. auto.
Qed.

Lemma callOk_mint_zero (v v' : Validator) (s : LegacyDec) :
  callOk (EvAddValidatorTokensAndShares v 0 (v', s, None)) = true ->
  s = LegacyZeroDec
  /\ Tokens v' = Tokens v /\ DelegatorShares v' = DelegatorShares v.
Proof.
  cbn. destruct (AddTokensFromDel v 0) as [[v1 s1]|] eqn:E; [|discriminate].
  apply AddTokensFromDel_zero in E. destruct E as (-> & Ht & Hs).
  destruct (LegacyDec_eq_dec s LegacyZeroDec) as [->|]; [|discriminate].
  destruct (LegacyDec_eq_dec (DelegatorShares v') (DelegatorShares v1))
    as [Heq|]; [|rewrite andb_false_r; discriminate].
  rewrite andb_true_r. intros Htk. apply Z.eqb_eq in Htk.
  repeat split; congruence.
Qed.

Lemma Add_zero_r (d : Delegation) :
  callOk (EvGetDelegation [] [] (d, None)) = true ->
  Add (Shares d) LegacyZeroDec = Some (Shares d).
Proof.
  cbn. unfold Add. destruct (Shares d) as [[a|]]; cbn; [|discriminate].
  rewrite Z.add_0_r. intros H. apply Z.leb_le in H.
  destruct (BitLen a >? maxDecBitLen) eqn:E; [|reflexivity].
  apply Z.gtb_lt in E. lia.
Qed.

Lemma NewCoin_zero (d : string) :
  ValidateDenom d = true -> NewCoin d 0 = Some (mkCoin d 0).
Proof. intros H. unfold NewCoin. rewrite H. reflexivity. Qed.

Lemma NewCoins_zero (d : string) : NewCoins [mkCoin d 0] = Some [].
Proof. reflexivity. Qed.

(** ** The claims, for any collaborators *)

Section Runs.

Variable W : Type.
Variable k : Keeper W.
Variable delAddr : AccAddress.

(** C1.  A validator whose exchange rate is invalid stops [Delegate] at
    once: it returns the zero decimal with [ErrDelegatorShareExRateInvalid]
    and the state it was given, world and call log alike, so no codec,
    store, ledger or hook call was made. *)
Theorem exchange_rate_gate (bondAmt : Int) (tokenSrc : BondStatus)
    (validator : Validator) (subtractAccount : bool) (s : State W) :
  InvalidExRate validator = true ->
  Delegate k delAddr bondAmt tokenSrc validator subtractAccount s
  = Returned (LegacyZeroDec, Some ErrDelegatorShareExRateInvalid) s.
Proof.
  intros Hinv. unfold_go. rewrite Hinv. reflexivity.
Qed.



(** C4, as amended.  Once the exchange-rate gate, the operator decoding,
    the delegation lookup and the pre-hook have passed, [Delegate] panics,
    before any ledger call or store write: with [subtractAccount = true]
    on a bonded source, and on a validator status outside Bonded,
    Unbonding, Unbonded; with [subtractAccount = false] on a combination
    that is none of the four enumerated ones.  With
    [subtractAccount = false] and a recognised source no validator status
    raises either of the two status panics. *)
Theorem contract_violations_panic (bondAmt : Int) (tokenSrc : BondStatus)
    (validator : Validator) (subtractAccount : bool) (w : W) :
  let res := run k delAddr bondAmt tokenSrc validator subtractAccount w in
  (reachedLiquidity (logOf res) ->
   (subtractAccount = true -> tokenSrc = Bonded ->
    abortsWith "delegation token source cannot be bonded" res)
   /\ (subtractAccount = true -> tokenSrc <> Bonded ->
       knownStatus (Status validator) = false ->
       abortsWith "invalid validator status" res)
   /\ (subtractAccount = false ->
       enumeratedCase tokenSrc validator = false ->
       abortsWith "unknown token source bond status" res))
  /\ (subtractAccount = false -> knownStatus tokenSrc = true ->
      forall s,
        res <> Panicked "invalid validator status" s
        /\ res <> Panicked "unknown token source bond status" s).
Proof.
  intros res; subst res; split.
  - intros (ev & Hin & Hp); unfold abortsWith.
    split; [|split].
    + intros -> ->.
      unfold_go; cbn; repeat (split_scrutinee; reduce).
      all: members Hin; try discriminate Hp.
      all: eexists; split; [reflexivity|]; split; reflexivity.
    + intros -> Hsrc Hst. apply Z.eqb_neq in Hsrc.
      unfold knownStatus in Hst.
      apply orb_false_iff in Hst; destruct Hst as [Hst Hu].
      apply orb_false_iff in Hst; destruct Hst as [Hb Hg].
      unfold_go; unfold IsBonded, IsUnbonding, IsUnbonded.
      rewrite Hsrc, Hb, Hg, Hu; cbn; repeat (split_scrutinee; reduce).
      all: members Hin; try discriminate Hp.
      all: eexists; split; [reflexivity|]; split; reflexivity.
    + intros -> Hcase. rewrite enumeratedCase_known in Hcase.
      unfold knownStatus in Hcase.
      apply orb_false_iff in Hcase; destruct Hcase as [Hcase Hu].
      apply orb_false_iff in Hcase; destruct Hcase as [Hb Hg].
      unfold_go. rewrite Hb, Hg, Hu; cbn; repeat (split_scrutinee; reduce).
      all: members Hin; try discriminate Hp.
      all: eexists; split; [reflexivity|]; split; reflexivity.
  - intros -> Hsrc s.
    exec; split; try discriminate.
    all: exfalso; rewrite <- (enumeratedCase_known tokenSrc validator) in Hsrc;
      unfold enumeratedCase in Hsrc;
      repeat match goal with
        | H : ?b = false |- _ => rewrite H in Hsrc
        end; discriminate Hsrc.
Qed.

(** C5.  After the operator address is decoded and the delegation looked
    up: a lookup without error is followed by the
    [BeforeDelegationSharesModified] hook; a lookup failing with the
    [ErrNoDelegation] sentinel is followed by the encoding of the delegator
    address, whose failure is returned, then by the
    [BeforeDelegationCreated] hook, the record in hand being a zero-share
    delegation between the encoded delegator and the operator; any other
    lookup error is returned as it is; and an error of either pre-hook is
    returned with nothing more called: no ledger call, no store write. *)
Theorem load_or_create (bondAmt : Int) (tokenSrc : BondStatus)
    (validator : Validator) (subtractAccount : bool) (w : W) :
  let res := run k delAddr bondAmt tokenSrc validator subtractAccount w in
  forall valbz d err rest,
    logOf res
    = EvStringToBytes (GetOperator validator) (valbz, None)
      :: EvGetDelegation delAddr valbz (d, err) :: rest ->
    match err with
    | None =>
        exists r rest',
          rest = EvBeforeDelegationSharesModified delAddr valbz r :: rest'
          /\ (forall e, r = Some e -> stopsWith LegacyZeroDec e res rest')
    | Some e =>
        if errors_Is e ErrNoDelegation then
          exists str r1 rest',
            rest = EvBytesToString delAddr (str, r1) :: rest'
            /\ match r1 with
               | Some e1 => stopsWith LegacyDecNil e1 res rest'
               | None =>
                   exists r rest'',
                     rest'
                     = EvBeforeDelegationCreated delAddr valbz r :: rest''
                     /\ (forall e', r = Some e' ->
                         stopsWith LegacyZeroDec e' res rest'')
                     /\ (forall dl rs,
                           In (EvSetDelegation dl rs) rest'' ->
                           exists v' newShares,
                             In (EvAddValidatorTokensAndShares
                                   validator bondAmt (v', newShares, None))
                                rest''
                             /\ Add LegacyZeroDec newShares
                                = Some (Shares dl)
                             /\ DelegatorAddress dl = str
                             /\ ValidatorAddress dl = GetOperator validator)
               end
        else stopsWith LegacyZeroDec e res rest
    end.
Proof.
  intros res valbz d err rest; subst res.
  exec; intros Hlog; try discriminate Hlog.
  all: injection Hlog; intros; subst; clear Hlog; try congruence.
  all: repeat match goal with
         | H : errors_Is _ _ = _ |- _ => rewrite H
         end.
  all: unfold stopsWith.
  all: try solve [ do 2 eexists; split; [reflexivity|];
                   intros ? [=]; subst;
                   repeat split; eauto ].
  all: try solve [ repeat split; eauto ].
  all: do 3 eexists; split; [reflexivity|].
  all: try solve [ repeat split; eauto ].
  all: do 2 eexists; split; [reflexivity|]; split;
    [ intros ? [=]; subst; repeat split; eauto |].
  all: intros dl rs Hin; members Hin.
  all: do 2 eexists; split; [cbn; eauto 12|]; repeat split; assumption.
Qed.

(** C6.  In a successful run for a delegator without a delegation, every
    ledger call comes after the [BeforeDelegationCreated] hook; and in any
    run the [AfterDelegationModified] hook comes after share minting and
    after a [SetDelegation] that succeeded on the record in hand with the
    minted shares added. *)
Theorem hook_ordering (bondAmt : Int) (tokenSrc : BondStatus)
    (validator : Validator) (subtractAccount : bool) (w : W) :
  let res := run k delAddr bondAmt tokenSrc validator subtractAccount w in
  (forall shares s valbz d e,
     res = Returned (shares, None) s ->
     In (EvGetDelegation delAddr valbz (d, Some e)) (snd s) ->
     forall pre ev post,
       snd s = pre ++ ev :: post -> isLedger ev = true ->
       exists r, In (EvBeforeDelegationCreated delAddr valbz r) pre)
  /\ (forall pre valbz r post,
        logOf res
        = pre ++ EvAfterDelegationModified delAddr valbz r :: post ->
        exists d0 v' newShares sum,
          inHand delAddr validator d0 pre
          /\ In (EvAddValidatorTokensAndShares validator bondAmt
                   (v', newShares, None)) pre
          /\ Add (Shares d0) newShares = Some sum
          /\ In (EvSetDelegation (setShares d0 sum) None) pre).
Proof.
  intros res; subst res; split.
  - intros shares s valbz d e Hres Hin pre ev post Hlog Hl.
    revert Hres; exec; intros Hres; try discriminate Hres.
    all: injection Hres; intros; subst; clear Hres; reduce.
    all: members Hin.
    all: positions Hlog; try discriminate Hl.
    all: eexists; cbn; eauto 12.
  - intros pre valbz r post Hlog.
    revert Hlog; exec; intros Hlog.
    all: positions Hlog.
    all: do 4 eexists; unfold inHand; split;
      [ first [ left; eexists; cbn; solve [eauto 12]
              | right; eexists; split; [cbn; solve [eauto 12] | reflexivity] ]
      | split; [cbn; solve [eauto 12] | split; [eassumption | cbn; eauto 12]] ].
Qed.

(** C7.  Once share minting has returned [newShares] without error,
    [Delegate] adds them to the share balance of the delegation in hand
    (the sum, not [newShares] alone), calls [SetDelegation] on the record
    so updated, returns [newShares] with the error of [SetDelegation] if
    there is one, otherwise fires [AfterDelegationModified] and returns
    [newShares] with that hook's result: its error, or nil on full
    success.  The one other outcome is the abort of the decimal library's
    [Add] on a nil operand or a sum beyond its bit length. *)
Theorem update_and_persist (bondAmt : Int) (tokenSrc : BondStatus)
    (validator : Validator) (subtractAccount : bool) (w : W) :
  let res := run k delAddr bondAmt tokenSrc validator subtractAccount w in
  forall pre v' newShares post,
    logOf res
    = pre ++ EvAddValidatorTokensAndShares validator bondAmt
               (v', newShares, None) :: post ->
    exists d0,
      inHand delAddr validator d0 pre
      /\ match Add (Shares d0) newShares with
         | None => post = [] /\ exists s, res = Panicked "LegacyDec.Add" s
         | Some sum =>
             (exists x y,
                i (Shares d0) = Some x /\ i newShares = Some y
                /\ i sum = Some (x + y))
             /\ exists rs post',
                  post = EvSetDelegation (setShares d0 sum) rs :: post'
                  /\ match rs with
                     | Some e =>
                         post' = []
                         /\ exists s, res = Returned (newShares, Some e) s
                     | None =>
                         exists valbz ra,
                           post'
                           = [EvAfterDelegationModified delAddr valbz ra]
                           /\ exists s, res = Returned (newShares, ra) s
                     end
         end.
Proof.
  intros res pre v' newShares post Hlog; subst res.
  revert Hlog; exec; intros Hlog.
  all: positions Hlog.
  all: eexists; unfold inHand; split;
    [ first [ left; eexists; cbn; solve [eauto 12]
            | right; eexists; split; [cbn; solve [eauto 12] | reflexivity] ]
    |].
  all: match goal with
       | H : Add _ _ = _ |- _ => rewrite H
       end.
  all: try solve [split; [reflexivity | eexists; reflexivity]].
  all: split; [eapply Add_value; eassumption|].
  all: do 2 eexists; split; [reflexivity|].
  all: try solve [split; [reflexivity | eexists; reflexivity]].
  all: do 2 eexists; split; [reflexivity | eexists; reflexivity].
Qed.

(** C8.  With [subtractAccount = false], a bonded source into a bonded
    validator, and an unbonded or unbonding source into a validator that is
    not bonded, make no ledger call at all (nor look the denomination up),
    and a run that got past the pre-hook goes straight on to share
    minting. *)
Theorem rebalance_noop_branches (bondAmt : Int) (tokenSrc : BondStatus)
    (validator : Validator) (w : W) :
  (tokenSrc = Bonded /\ IsBonded validator = true)
  \/ ((tokenSrc = Unbonded \/ tokenSrc = Unbonding)
      /\ IsBonded validator = false) ->
  let res := run k delAddr bondAmt tokenSrc validator false w in
  ledgerCalls (logOf res) = []
  /\ (forall r, ~ In (EvBondDenom r) (logOf res))
  /\ (forall e, In e (logOf res) -> preHookPassed e = true ->
      exists r,
        In (EvAddValidatorTokensAndShares validator bondAmt r) (logOf res)).
Proof.
  intros Hcase res; subst res.
  exec; conds_split; try lia; try congruence.
  all: repeat split; try reflexivity.
  all: try (intros r Hin; cbn in Hin; intuition discriminate).
  all: try (intros ev Hin Hp; cbn in Hin;
            repeat (destruct Hin as [<- | Hin]; [try discriminate Hp|]);
            try contradiction;
            eexists; cbn; eauto 12).
Qed.

(** C9, as amended.  On a validator whose exchange rate is not invalid and
    a combination of source, status and [subtractAccount] that does not
    panic, a run with [bondAmt = 0] in which every call [Delegate] makes
    goes well (no error but possibly the [ErrNoDelegation] sentinel, a
    well-formed denomination and stored balance, minting by the
    primitive's contract) returns zero shares and no error, and the
    validator the minting primitive wrote has the token and share totals
    it had. *)
Theorem zero_amount_delegation (tokenSrc : BondStatus)
    (validator : Validator) (subtractAccount : bool) (w : W) :
  InvalidExRate validator = false ->
  legalCombination tokenSrc validator subtractAccount = true ->
  let res := run k delAddr 0 tokenSrc validator subtractAccount w in
  forallb callOk (logOf res) = true ->
  exists s v',
    res = Returned (LegacyZeroDec, None) s
    /\ In (EvAddValidatorTokensAndShares validator 0
             (v', LegacyZeroDec, None)) (snd s)
    /\ Tokens v' = Tokens validator
    /\ DelegatorShares v' = DelegatorShares validator.
Proof.
  intros Hinv Hlegal res; subst res.
  unfold legalCombination in Hlegal.
  unfold_go; rewrite Hinv; reduce; repeat (split_scrutinee; reduce).
  all: intros Hok; cbn [forallb] in Hok.
  all: repeat (apply andb_true_iff in Hok; destruct Hok as [? Hok]).
  all: repeat match goal with
         | H : callOk (EvAddValidatorTokensAndShares _ _ (_, _, None)) = true
           |- _ => apply callOk_mint_zero in H; destruct H as (-> & ? & ?)
         | H : callOk (EvGetDelegation _ _ (?d, None)) = true |- _ =>
             apply (Add_zero_r d) in H
         | H : callOk (EvBondDenom (_, None)) = true |- _ =>
             cbn in H; apply NewCoin_zero in H
         | H : callOk _ = true |- _ =>
             cbn in H; try discriminate H; try congruence; clear H
         end.
  all: same_results.
  all: try congruence.
  all: try solve [conds_split; try lia; congruence].
  all: try solve [do 2 eexists; split; [reflexivity|]; split;
                  [cbn; eauto 12 | split; assumption]].
  all: try match goal with
         | H : NewCoins [_] = None |- _ => discriminate H
         | H : Add _ _ = None |- _ => discriminate H
         end.
Qed.

End Runs.

(** C10.  The decimal [Delegate] returns next to an error depends on the
    call that failed, which is the last one in the log: the zero decimal for
    the exchange-rate gate (empty log), the operator decoding, the lookup and
    the two pre-hooks; the nil decimal [LegacyDec{}] for the delegator
    encoding, the denomination lookup and the two ledger transfers; and the
    shares the minting primitive returned for a failure of minting, of
    [SetDelegation] and of the post-hook.  The last can be non-zero: the
    first scenario of section 8 with a failing post-hook returns 100
    shares next to the hook's error. *)
Theorem returned_decimal_by_failure :
  LegacyZeroDec <> LegacyDecNil
  /\ (forall (W : Type) (k : Keeper W) (delAddr : AccAddress) (bondAmt : Int)
          (tokenSrc : BondStatus) (validator : Validator)
          (subtractAccount : bool) (w : W)
          (shares : LegacyDec) (err : error) (s : State W),
      run k delAddr bondAmt tokenSrc validator subtractAccount w
      = Returned (shares, Some err) s ->
      failureTable (rev (snd s)) shares err)
  /\ exists s,
       run (Ref.keeper (Ref.hooks None None (Some (ErrOther "hook failed"))))
         Ref.D 100 Unbonded (Ref.V Bonded) true Ref.w0
       = Returned (mkDec (Some (100 * 10 ^ 18)),
                   Some (ErrOther "hook failed")) s.
Proof.
  split; [discriminate|split].
  - intros W k delAddr bondAmt tokenSrc validator subtractAccount w
      shares err s.
    exec; intros Hres; try discriminate Hres.
    all: injection Hres; intros; subst; clear Hres.
    all: cbn; auto.
  - eexists. vm_compute. reflexivity.
Qed.

(** ** The scenarios of section 8 and concrete runs *)

(** First scenario: a first delegation of 100 from the account into a bonded
    validator at rate one. *)
Example scenario_direct :
  let res := run Ref.quiet Ref.D 100 Unbonded (Ref.V Bonded) true Ref.w0 in
  (exists s, res = Returned (mkDec (Some (100 * Ref.one)), None) s)
  /\ ledgerCalls (logOf res)
     = [EvDelegateCoinsFromAccountToModule Ref.D BondedPoolName
          [mkCoin "aevmos" 100] None]
  /\ filter isHook (logOf res)
     = [EvBeforeDelegationCreated Ref.D valbzV None;
        EvAfterDelegationModified Ref.D valbzV None]
  /\ Ref.getDelegation Ref.D valbzV (worldOf res)
     = (mkDelegation "delegator1" Ref.opV (mkDec (Some (100 * Ref.one))),
        None, worldOf res).
Proof.
  cbv zeta. split; [eexists; vm_compute; reflexivity|].
  repeat split; vm_compute; reflexivity.
Qed.

(** Second scenario: 50 bonded tokens moved to the same validator, now
    unbonding, without touching the account. *)
Example scenario_rebalance :
  let res := run Ref.quiet Ref.D 50 Bonded (Ref.V' Unbonding) false Ref.w1 in
  (exists s, res = Returned (mkDec (Some (50 * Ref.one)), None) s)
  /\ ledgerCalls (logOf res)
     = [EvSendCoinsFromModuleToModule BondedPoolName NotBondedPoolName
          [mkCoin "aevmos" 50] None]
  /\ Ref.getDelegation Ref.D valbzV (worldOf res)
     = (mkDelegation "delegator1" Ref.opV (mkDec (Some (150 * Ref.one))),
        None, worldOf res).
Proof.
  cbv zeta. split; [eexists; vm_compute; reflexivity|].
  repeat split; vm_compute; reflexivity.
Qed.

Lemma exchange_rate_gate_witness :
  InvalidExRate slashed = true
  /\ Delegate Ref.quiet Ref.D 100 Unbonded slashed true (Ref.w0, [])
     = Returned (LegacyZeroDec, Some ErrDelegatorShareExRateInvalid)
         (Ref.w0, []).
Proof.
  split; [reflexivity|].
  apply (exchange_rate_gate Ref.World Ref.quiet Ref.D 100 Unbonded slashed
           true (Ref.w0, [])).
  reflexivity.
Defined.



(** C4 as stated fails twice over.  With [subtractAccount = false] a
    validator whose status is none of Bonded, Unbonding, Unbonded is handled
    as not bonded and the run succeeds; and a bonded source with
    [subtractAccount = true] on a validator with an invalid exchange rate is
    answered by the gate's error, not by a panic. *)
Lemma violation_without_panic :
  (knownStatus (Status (Ref.V' Unspecified)) = false
   /\ exists s,
        run Ref.quiet Ref.D 50 Bonded (Ref.V' Unspecified) false Ref.w1
        = Returned (mkDec (Some (50 * Ref.one)), None) s)
  /\ run Ref.quiet Ref.D 50 Bonded slashed true Ref.w1
     = Returned (LegacyZeroDec, Some ErrDelegatorShareExRateInvalid)
         (Ref.w1, []).
Proof.
  split; [split; [reflexivity | eexists; vm_compute; reflexivity]|].
  vm_compute; reflexivity.
Qed.

Lemma contract_violations_panic_witness :
  abortsWith "delegation token source cannot be bonded"
    (run Ref.quiet Ref.D 100 Bonded (Ref.V Bonded) true Ref.w0)
  /\ abortsWith "invalid validator status"
       (run Ref.quiet Ref.D 100 Unbonded (Ref.V Unspecified) true Ref.w0)
  /\ abortsWith "unknown token source bond status"
       (run Ref.quiet Ref.D 100 Unspecified (Ref.V Bonded) false Ref.w0).
Proof.
  assert (Hsrc : Unbonded <> Bonded) by (unfold Unbonded, Bonded; lia).
  assert (Hreach : forall log,
            In (EvBeforeDelegationCreated Ref.D valbzV None) log ->
            reachedLiquidity log).
  { intros log Hin. eexists; split; [exact Hin | reflexivity]. }
  split; [|split].
  - apply (proj1 (contract_violations_panic Ref.World Ref.quiet Ref.D 100
                    Bonded (Ref.V Bonded) true Ref.w0));
      [apply Hreach; vm_compute; auto 10 | reflexivity | reflexivity].
  - apply (proj1 (contract_violations_panic Ref.World Ref.quiet Ref.D 100
                    Unbonded (Ref.V Unspecified) true Ref.w0));
      [apply Hreach; vm_compute; auto 10 | reflexivity | exact Hsrc
      | reflexivity].
  - apply (proj1 (contract_violations_panic Ref.World Ref.quiet Ref.D 100
                    Unspecified (Ref.V Bonded) false Ref.w0));
      [apply Hreach; vm_compute; auto 10 | reflexivity | reflexivity].
Defined.

Lemma load_or_create_witness :
  let res := run Ref.quiet Ref.D 100 Unbonded (Ref.V Bonded) true Ref.w0 in
  exists str r1 rest',
    skipn 2 (logOf res) = EvBytesToString Ref.D (str, r1) :: rest'
    /\ match r1 with
       | Some e1 => stopsWith LegacyDecNil e1 res rest'
       | None =>
           exists r rest'',
             rest' = EvBeforeDelegationCreated Ref.D valbzV r :: rest''
             /\ (forall e', r = Some e' ->
                 stopsWith LegacyZeroDec e' res rest'')
             /\ (forall dl rs,
                   In (EvSetDelegation dl rs) rest'' ->
                   exists v' newShares,
                     In (EvAddValidatorTokensAndShares (Ref.V Bonded) 100
                           (v', newShares, None)) rest''
                     /\ Add LegacyZeroDec newShares = Some (Shares dl)
                     /\ DelegatorAddress dl = str
                     /\ ValidatorAddress dl = GetOperator (Ref.V Bonded))
       end.
Proof.
  intros res.
  apply (load_or_create Ref.World Ref.quiet Ref.D 100 Unbonded (Ref.V Bonded)
           true Ref.w0 valbzV (mkDelegation "" "" LegacyDecNil)
           (Some ErrNoDelegation) (skipn 2 (logOf res))).
  vm_compute; reflexivity.
Defined.

Lemma hook_ordering_witness :
  let log :=
    logOf (run Ref.quiet Ref.D 100 Unbonded (Ref.V Bonded) true Ref.w0) in
  (exists r, In (EvBeforeDelegationCreated Ref.D valbzV r) (firstn 5 log))
  /\ exists d0 v' newShares sum,
       inHand Ref.D (Ref.V Bonded) d0 (firstn 8 log)
       /\ In (EvAddValidatorTokensAndShares (Ref.V Bonded) 100
                (v', newShares, None)) (firstn 8 log)
       /\ Add (Shares d0) newShares = Some sum
       /\ In (EvSetDelegation (setShares d0 sum) None) (firstn 8 log).
Proof.
  intros log; split.
  - apply (proj1 (hook_ordering Ref.World Ref.quiet Ref.D 100 Unbonded
                    (Ref.V Bonded) true Ref.w0)
             (mkDec (Some (100 * Ref.one)))
             (worldOf (run Ref.quiet Ref.D 100 Unbonded (Ref.V Bonded) true
                         Ref.w0), log)
             valbzV (mkDelegation "" "" LegacyDecNil) ErrNoDelegation)
      with (ev := nth 5 log (EvBondDenom ("", None))) (post := skipn 6 log).
    + vm_compute; reflexivity.
    + vm_compute; auto.
    + vm_compute; reflexivity.
    + vm_compute; reflexivity.
  - apply (proj2 (hook_ordering Ref.World Ref.quiet Ref.D 100 Unbonded
                    (Ref.V Bonded) true Ref.w0)
             (firstn 8 log) valbzV None []).
    vm_compute; reflexivity.
Defined.

Lemma update_and_persist_witness :
  let res := run Ref.quiet Ref.D 50 Bonded (Ref.V' Unbonding) false Ref.w1 in
  exists d0,
    inHand Ref.D (Ref.V' Unbonding) d0 (firstn 5 (logOf res))
    /\ match Add (Shares d0) (mkDec (Some (50 * Ref.one))) with
       | None =>
           skipn 6 (logOf res) = []
           /\ exists s, res = Panicked "LegacyDec.Add" s
       | Some sum =>
           (exists x y,
              i (Shares d0) = Some x
              /\ i (mkDec (Some (50 * Ref.one))) = Some y
              /\ i sum = Some (x + y))
           /\ exists rs post',
                skipn 6 (logOf res)
                = EvSetDelegation (setShares d0 sum) rs :: post'
                /\ match rs with
                   | Some e =>
                       post' = []
                       /\ exists s,
                            res = Returned (mkDec (Some (50 * Ref.one)),
                                            Some e) s
                   | None =>
                       exists valbz ra,
                         post' = [EvAfterDelegationModified Ref.D valbz ra]
                         /\ exists s,
                              res = Returned (mkDec (Some (50 * Ref.one)),
                                              ra) s
                   end
       end.
Proof.
  intros res.
  apply (update_and_persist Ref.World Ref.quiet Ref.D 50 Bonded
           (Ref.V' Unbonding) false Ref.w1 (firstn 5 (logOf res))
           (mkValidator Ref.opV Unbonding 1150
              (mkDec (Some (1150 * Ref.one))))
           (mkDec (Some (50 * Ref.one))) (skipn 6 (logOf res))).
  vm_compute; reflexivity.
Defined.

Lemma rebalance_noop_branches_witness :
  let res := run Ref.quiet Ref.D 50 Bonded (Ref.V' Bonded) false Ref.w1 in
  ledgerCalls (logOf res) = []
  /\ (forall r, ~ In (EvBondDenom r) (logOf res))
  /\ (forall e, In e (logOf res) -> preHookPassed e = true ->
      exists r,
        In (EvAddValidatorTokensAndShares (Ref.V' Bonded) 50 r) (logOf res)).
Proof.
  apply (rebalance_noop_branches Ref.World Ref.quiet Ref.D 50 Bonded
           (Ref.V' Bonded) Ref.w1).
  left; split; reflexivity.
Defined.

(** C9 as stated fails: the validator is sound and the combination legal,
    yet a delegation of zero by a first-time delegator is refused when the
    [BeforeDelegationCreated] hook fails. *)
Lemma zero_amount_can_fail :
  InvalidExRate (Ref.V Bonded) = false
  /\ legalCombination Unbonded (Ref.V Bonded) true = true
  /\ run failingCreateHook Ref.D 0 Unbonded (Ref.V Bonded) true Ref.w0
     = Returned (LegacyZeroDec, Some (ErrOther "hook failed"))
         (Ref.w0,
          [EvStringToBytes Ref.opV (valbzV, None);
           EvGetDelegation Ref.D valbzV
             (mkDelegation "" "" LegacyDecNil, Some ErrNoDelegation);
           EvBytesToString Ref.D ("delegator1", None);
           EvBeforeDelegationCreated Ref.D valbzV
             (Some (ErrOther "hook failed"))]).
Proof. repeat split; vm_compute; reflexivity. Qed.

Lemma zero_amount_delegation_witness :
  exists s v',
    run Ref.quiet Ref.D 0 Unbonded (Ref.V Bonded) true Ref.w0
    = Returned (LegacyZeroDec, None) s
    /\ In (EvAddValidatorTokensAndShares (Ref.V Bonded) 0
             (v', LegacyZeroDec, None)) (snd s)
    /\ Tokens v' = Tokens (Ref.V Bonded)
    /\ DelegatorShares v' = DelegatorShares (Ref.V Bonded).
Proof.
  apply (zero_amount_delegation Ref.World Ref.quiet Ref.D Unbonded
           (Ref.V Bonded) true Ref.w0); vm_compute; reflexivity.
Defined.

Lemma returned_decimal_by_failure_witness :
  let res :=
    run failingPostHook Ref.D 100 Unbonded (Ref.V Bonded) true Ref.w0 in
  failureTable (rev (logOf res)) (mkDec (Some (100 * Ref.one)))
    (ErrOther "hook failed").
Proof.
  intros res.
  apply (proj1 (proj2 returned_decimal_by_failure) Ref.World failingPostHook
           Ref.D 100 Unbonded (Ref.V Bonded) true Ref.w0
           (mkDec (Some (100 * Ref.one))) (ErrOther "hook failed")
           (worldOf res, logOf res)).
  vm_compute; reflexivity.
Defined.

(** ** Beyond the claims: the two pool transfers *)

Lemma NewCoin_coinSet (d : string) (amt : Int) :
  ValidateDenom d = true -> 0 <= amt ->
  NewCoin d amt = Some (mkCoin d amt)
  /\ NewCoins [mkCoin d amt] = Some (coinSet d amt).
Proof.
  intros Hd Hamt. unfold NewCoin, NewCoins, coinSet, removeZeroCoins.
  rewrite Hd. apply Z.leb_le in Hamt as Hle. rewrite Hle. split; [reflexivity|].
  cbn. destruct (amt =? 0) eqn:E; cbn; [reflexivity|].
  unfold validCoin; cbn. rewrite Hd.
  apply Z.eqb_neq in E.
  assert (Hpos : (0 <? amt) = true) by (apply Z.ltb_lt; lia).
  rewrite Hpos. reflexivity.
Qed.

Lemma NewCoin_rejects (d : string) (amt : Int) :
  amt < 0 \/ ValidateDenom d = false -> NewCoin d amt = None.
Proof.
  unfold NewCoin. intros [Hneg | Hd].
  - assert (H : (0 <=? amt) = false) by (apply Z.leb_gt; lia).
    rewrite H, andb_false_r. reflexivity.
  - rewrite Hd. reflexivity.
Qed.

Section PoolTransfers.

Variable W : Type.
Variable k : Keeper W.

(** X1.  When the denomination lookup fails, either pool transfer returns
    the lookup's error and has called nothing else: no coin is built and
    the ledger is not reached. *)
Theorem pool_transfer_denom_failure (tokens : Int) (w w' : W) (t : Trace)
    (d : string) (e : error) :
  BondDenom k w = ((d, Some e), w') ->
  bondedTokensToNotBonded k tokens (w, t)
  = Returned (Some e) (w', t ++ [EvBondDenom (d, Some e)])
  /\ notBondedTokensToBonded k tokens (w, t)
     = Returned (Some e) (w', t ++ [EvBondDenom (d, Some e)]).
Proof.
  intros Hd. unfold_go; cbn [fst snd]. rewrite Hd. split; reflexivity.
Qed.

(** X2.  With a denomination that resolves and a non-negative amount,
    either pool transfer makes exactly one module-to-module transfer, in its
    own direction, and returns what the ledger returned, error or nil.  The
    coin set is empty for a zero amount: the ledger is still called. *)
Theorem pool_transfer_sends_once (tokens : Int) (w w1 : W) (t : Trace)
    (d : string) :
  BondDenom k w = ((d, None), w1) ->
  ValidateDenom d = true -> 0 <= tokens ->
  (forall r w2,
     SendCoinsFromModuleToModule (bk k) BondedPoolName NotBondedPoolName
       (coinSet d tokens) w1 = (r, w2) ->
     bondedTokensToNotBonded k tokens (w, t)
     = Returned r
         (w2, (t ++ [EvBondDenom (d, None)])
              ++ [EvSendCoinsFromModuleToModule BondedPoolName
                    NotBondedPoolName (coinSet d tokens) r]))
  /\ (forall r w2,
        SendCoinsFromModuleToModule (bk k) NotBondedPoolName BondedPoolName
          (coinSet d tokens) w1 = (r, w2) ->
        notBondedTokensToBonded k tokens (w, t)
        = Returned r
            (w2, (t ++ [EvBondDenom (d, None)])
                 ++ [EvSendCoinsFromModuleToModule NotBondedPoolName
                       BondedPoolName (coinSet d tokens) r])).
Proof.
  intros Hd Hvalid Hamt.
  destruct (NewCoin_coinSet d tokens Hvalid Hamt) as [Hc Hcs].
  split; intros r w2 Hsend; unfold_go; cbn [fst snd];
    rewrite Hd; cbn [fst snd]; rewrite Hc, Hcs; cbn [fst snd];
    rewrite Hsend; reflexivity.
Qed.

(** X3.  A negative amount, or a denomination that is not well formed,
    makes either pool transfer panic in [sdk.NewCoin], after the lookup and
    before the ledger is called. *)
Theorem pool_transfer_rejects (tokens : Int) (w w1 : W) (t : Trace)
    (d : string) :
  BondDenom k w = ((d, None), w1) ->
  tokens < 0 \/ ValidateDenom d = false ->
  bondedTokensToNotBonded k tokens (w, t)
  = Panicked "NewCoin" (w1, t ++ [EvBondDenom (d, None)])
  /\ notBondedTokensToBonded k tokens (w, t)
     = Panicked "NewCoin" (w1, t ++ [EvBondDenom (d, None)]).
Proof.
  intros Hd Hbad. apply NewCoin_rejects in Hbad.
  split; unfold_go; cbn [fst snd]; rewrite Hd; cbn [fst snd];
    rewrite Hbad; reflexivity.
Qed.

End PoolTransfers.

Lemma pool_transfer_denom_failure_witness :
  bondedTokensToNotBonded Ref.quiet 50 (unconfigured, [])
  = Returned (Some (ErrOther "bond denomination is not set"))
      (unconfigured,
       [EvBondDenom ("", Some (ErrOther "bond denomination is not set"))])
  /\ notBondedTokensToBonded Ref.quiet 50 (unconfigured, [])
     = Returned (Some (ErrOther "bond denomination is not set"))
         (unconfigured,
          [EvBondDenom ("", Some (ErrOther "bond denomination is not set"))]).
Proof.
  apply (pool_transfer_denom_failure Ref.World Ref.quiet 50 unconfigured
           unconfigured [] "" (ErrOther "bond denomination is not set")).
  reflexivity.
Defined.

Lemma pool_transfer_sends_once_witness :
  bondedTokensToNotBonded Ref.quiet 0 (Ref.w0, [])
  = Returned None
      (Ref.w0,
       [EvBondDenom ("aevmos", None);
        EvSendCoinsFromModuleToModule BondedPoolName NotBondedPoolName []
          None])
  /\ notBondedTokensToBonded Ref.quiet 500 (Ref.w0, [])
     = Returned (Some (ErrOther "insufficient funds"))
         (Ref.w0,
          [EvBondDenom ("aevmos", None);
           EvSendCoinsFromModuleToModule NotBondedPoolName BondedPoolName
             [mkCoin "aevmos" 500] (Some (ErrOther "insufficient funds"))]).
Proof.
  split.
  - apply (proj1 (pool_transfer_sends_once Ref.World Ref.quiet 0 Ref.w0
                    Ref.w0 [] "aevmos" eq_refl eq_refl ltac:(lia))
             None Ref.w0).
    reflexivity.
  - apply (proj2 (pool_transfer_sends_once Ref.World Ref.quiet 500 Ref.w0
                    Ref.w0 [] "aevmos" eq_refl eq_refl ltac:(lia))
             (Some (ErrOther "insufficient funds")) Ref.w0).
    reflexivity.
Defined.

Lemma pool_transfer_rejects_witness :
  bondedTokensToNotBonded Ref.quiet (-5) (Ref.w0, [])
  = Panicked "NewCoin" (Ref.w0, [EvBondDenom ("aevmos", None)])
  /\ notBondedTokensToBonded Ref.quiet (-5) (Ref.w0, [])
     = Panicked "NewCoin" (Ref.w0, [EvBondDenom ("aevmos", None)]).
Proof.
  apply (pool_transfer_rejects Ref.World Ref.quiet (-5) Ref.w0 Ref.w0 []
           "aevmos").
  - reflexivity.
  - left; lia.
Defined.

(** ** Beyond the claims: [Delegate] as a whole *)

Lemma errors_Is_rootCause (e : error) :
  errors_Is e ErrNoDelegation = true <-> rootCause e = ErrNoDelegation.
Proof.
  induction e as [| | msg | msg cause IH]; cbn.
  - split; discriminate.
  - split; reflexivity.
  - split; discriminate.
  - destruct (error_eq_dec (ErrWrap msg cause) ErrNoDelegation) as [E|_];
      [discriminate E | exact IH].
Qed.

Lemma NewCoins_of_NewCoin (d : string) (amt : Int) (c : Coin) :
  NewCoin d amt = Some c ->
  c = mkCoin d amt /\ ValidateDenom d = true /\ 0 <= amt
  /\ NewCoins [c] = Some (coinSet d amt).
Proof.
  intros Hc. apply NewCoin_inv in Hc. destruct Hc as (-> & Hd & Hamt).
  repeat split; auto. exact (proj2 (NewCoin_coinSet d amt Hd Hamt)).
Qed.

(** bring the coin constructors of a path to their values *)
Ltac coins :=
  repeat match goal with
    | H : NewCoin _ _ = Some _ |- _ =>
        apply NewCoins_of_NewCoin in H; destruct H as (-> & ? & ? & ?)
    end;
  same_results.

Section WholeRuns.

Variable W : Type.
Variable k : Keeper W.
Variable delAddr : AccAddress.

(** X4.  An operator address the codec cannot decode ends the run with the
    codec's error and the zero decimal; the decoding is the only call made
    and the world is the one [Delegate] was given. *)
Theorem operator_decode_failure (bondAmt : Int) (tokenSrc : BondStatus)
    (validator : Validator) (subtractAccount : bool) (w : W)
    (bz : bytes) (e : error) :
  InvalidExRate validator = false ->
  StringToBytes (ValidatorAddressCodec k) (GetOperator validator)
  = (bz, Some e) ->
  run k delAddr bondAmt tokenSrc validator subtractAccount w
  = Returned (LegacyZeroDec, Some e)
      (w, [EvStringToBytes (GetOperator validator) (bz, Some e)]).
Proof.
  intros Hinv Hdec. unfold_go. rewrite Hinv. cbn [fst snd app].
  rewrite Hdec. reflexivity.
Qed.

(** X5.  Whatever the outcome, every call of a run is made on what
    [Delegate] was given: the codec decodes the validator's operator text,
    the lookup and the three hooks receive the delegator address and the
    bytes that decoding returned, the encoding and the account transfer
    receive the delegator address, and share minting receives the
    validator snapshot and the amount of the call. *)
Theorem calls_well_addressed (bondAmt : Int) (tokenSrc : BondStatus)
    (validator : Validator) (subtractAccount : bool) (w : W) :
  wellAddressed delAddr validator bondAmt
    (logOf (run k delAddr bondAmt tokenSrc validator subtractAccount w)).
Proof.
  unfold wellAddressed. exec.
  all: intros ev Hin; members Hin; cbn; auto 12.
Qed.

(** X6.  The calls of any run, successful or not, follow one fixed order,
    each step at most once: operator decoding, lookup, delegator encoding,
    a pre-hook, denomination lookup, a ledger transfer, share minting,
    [SetDelegation], post-hook.  In particular no run fires both pre-hooks,
    calls the ledger twice, or persists before minting. *)
Theorem calls_in_step_order (bondAmt : Int) (tokenSrc : BondStatus)
    (validator : Validator) (subtractAccount : bool) (w : W) :
  StronglySorted lt
    (map stage
       (logOf (run k delAddr bondAmt tokenSrc validator subtractAccount w))).
Proof.
  exec.
  all: cbn; repeat (constructor; [|repeat constructor; lia]); constructor.
Qed.

(** X7.  [Delegate] stops at the first call that fails: a call that came
    back with an error (for the lookup, one that is not [ErrNoDelegation])
    is the last call of the run, and the run returns that very error. *)
Theorem fail_fast (bondAmt : Int) (tokenSrc : BondStatus)
    (validator : Validator) (subtractAccount : bool) (w : W) :
  let res := run k delAddr bondAmt tokenSrc validator subtractAccount w in
  forall pre e post,
    logOf res = pre ++ e :: post -> failed e = true ->
    post = []
    /\ exists dec err s,
         eventError e = Some err /\ res = Returned (dec, Some err) s.
Proof.
  intros res pre e post Hlog Hf; subst res.
  revert Hlog; exec; intros Hlog.
  all: positions Hlog; cbn in Hf; try discriminate Hf.
  all: try (rewrite negb_true_iff in Hf; congruence).
  all: split; [reflexivity|]; do 3 eexists; split; reflexivity.
Qed.

(** X8.  A run that returns without error went through every step and no
    call of it failed: its log ends with share minting that returned the
    shares [Delegate] returns, a [SetDelegation] and the post-hook, each
    without error. *)
Theorem success_went_through (bondAmt : Int) (tokenSrc : BondStatus)
    (validator : Validator) (subtractAccount : bool) (w : W)
    (shares : LegacyDec) (s : State W) :
  run k delAddr bondAmt tokenSrc validator subtractAccount w
  = Returned (shares, None) s ->
  existsb failed (snd s) = false
  /\ exists pre v' d valbz,
       snd s
       = pre ++ [EvAddValidatorTokensAndShares validator bondAmt
                   (v', shares, None);
                 EvSetDelegation d None;
                 EvAfterDelegationModified delAddr valbz None].
Proof.
  exec; intros Hres; try discriminate Hres.
  all: injection Hres; intros; subst; clear Hres; reduce.
  all: split;
    [ cbn; repeat match goal with
             | H : errors_Is _ _ = _ |- _ => rewrite H
             end; reflexivity
    | ].
  all: match goal with
       | |- exists pre v' d valbz, ?l = _ =>
           first
             [ exists (firstn 3 l); do 3 eexists; reflexivity
             | exists (firstn 4 l); do 3 eexists; reflexivity
             | exists (firstn 5 l); do 3 eexists; reflexivity
             | exists (firstn 6 l); do 3 eexists; reflexivity ]
       end.
Qed.

(** X9.  The token source is looked at only as far as the branches need
    it.  With [subtractAccount = true] it is only compared with Bonded: any
    two sources other than Bonded, an unrecognised one included, give the
    same run.  With [subtractAccount = false] Unbonded and Unbonding give
    the same run. *)
Theorem token_source_coarse (bondAmt : Int) (validator : Validator)
    (w : W) :
  (forall src1 src2,
     src1 <> Bonded -> src2 <> Bonded ->
     run k delAddr bondAmt src1 validator true w
     = run k delAddr bondAmt src2 validator true w)
  /\ run k delAddr bondAmt Unbonded validator false w
     = run k delAddr bondAmt Unbonding validator false w.
Proof.
  split.
  - intros src1 src2 H1 H2.
    apply Z.eqb_neq in H1; apply Z.eqb_neq in H2.
    unfold run, Delegate. rewrite H1, H2. reflexivity.
  - reflexivity.
Qed.

(** X10.  What reaches the ledger: any ledger call of a run moves the
    coin set of the amount in the denomination the lookup returned, which
    is then well formed, the amount being non-negative; the set is empty
    for a zero amount.  So a run with a negative amount never calls the
    ledger. *)
Theorem ledger_coins (bondAmt : Int) (tokenSrc : BondStatus)
    (validator : Validator) (subtractAccount : bool) (w : W) :
  let log :=
    logOf (run k delAddr bondAmt tokenSrc validator subtractAccount w) in
  (forall e, In e log -> isLedger e = true ->
     exists d,
       In (EvBondDenom (d, None)) log
       /\ ValidateDenom d = true /\ 0 <= bondAmt
       /\ coinsOf e = coinSet d bondAmt)
  /\ (bondAmt < 0 -> ledgerCalls log = []).
Proof.
  intros log; subst log.
  assert (Hall : forall e,
            In e (logOf (run k delAddr bondAmt tokenSrc validator
                           subtractAccount w)) ->
            isLedger e = true ->
            exists d,
              In (EvBondDenom (d, None))
                 (logOf (run k delAddr bondAmt tokenSrc validator
                           subtractAccount w))
              /\ ValidateDenom d = true /\ 0 <= bondAmt
              /\ coinsOf e = coinSet d bondAmt).
  { exec.
    all: intros ev Hin Hl; members Hin; try discriminate Hl.
    all: coins; eexists; split; [cbn; eauto 12|]; auto. }
  split; [exact Hall|].
  intros Hneg. unfold ledgerCalls.
  destruct (filter isLedger _) as [|e rest] eqn:E; [reflexivity|].
  assert (Hin : In e (e :: rest)) by (left; reflexivity).
  rewrite <- E in Hin. apply filter_In in Hin. destruct Hin as [Hin Hl].
  destruct (Hall e Hin Hl) as (d & _ & _ & Hpos & _). lia.
Qed.

(** X11.  A panic never comes after persistence: a run that panics has
    called neither [SetDelegation] nor the post-hook.  Its message is one
    of the three of [Delegate], or names [sdk.NewCoin] or [LegacyDec.Add];
    and unless it is the decimal addition that aborted, the run has not
    called the ledger or minted shares either. *)
Theorem panic_before_persistence (bondAmt : Int) (tokenSrc : BondStatus)
    (validator : Validator) (subtractAccount : bool) (w : W)
    (msg : string) (s : State W) :
  run k delAddr bondAmt tokenSrc validator subtractAccount w
  = Panicked msg s ->
  (forall e, In e (snd s) -> (stage e < 7)%nat)
  /\ In msg ["delegation token source cannot be bonded";
             "invalid validator status";
             "unknown token source bond status";
             "NewCoin"; "LegacyDec.Add"]
  /\ (msg <> "LegacyDec.Add" ->
      ledgerCalls (snd s) = [] /\ filter isStoreWrite (snd s) = []).
Proof.
  exec; intros Hres; try discriminate Hres.
  all: injection Hres; intros; subst; clear Hres; reduce.
  all: coins.
  all: split; [intros ev Hin; members Hin; cbn; lia|].
  all: split; [cbn; auto 10|].
  all: intros Hmsg; try (exfalso; apply Hmsg; reflexivity).
  all: split; reflexivity.
Qed.

(** X12.  The lookup error is matched with [errors.Is], not compared: the
    create path (encoding of the delegator address next) is taken exactly
    when the error's [Unwrap] chain ends in [ErrNoDelegation], however
    deeply wrapped; any other lookup error ends the run. *)
Theorem create_path_by_root_cause (bondAmt : Int) (tokenSrc : BondStatus)
    (validator : Validator) (subtractAccount : bool) (w : W) :
  let log :=
    logOf (run k delAddr bondAmt tokenSrc validator subtractAccount w) in
  forall pre valbz d e post,
    log = pre ++ EvGetDelegation delAddr valbz (d, Some e) :: post ->
    (rootCause e = ErrNoDelegation ->
     exists r post', post = EvBytesToString delAddr r :: post')
    /\ (rootCause e <> ErrNoDelegation -> post = []).
Proof.
  intros log pre valbz d e post Hlog; subst log.
  rewrite <- errors_Is_rootCause.
  revert Hlog; exec; intros Hlog.
  all: positions Hlog.
  all: split; intros Hroot; try congruence; eauto.
Qed.

End WholeRuns.

Lemma operator_decode_failure_witness :
  run Ref.quiet Ref.D 100 Unbonded nameless true Ref.w0
  = Returned
      (LegacyZeroDec, Some (ErrOther "empty address string is not allowed"))
      (Ref.w0,
       [EvStringToBytes ""
          ([], Some (ErrOther "empty address string is not allowed"))]).
Proof.
  apply (operator_decode_failure Ref.World Ref.quiet Ref.D 100 Unbonded
           nameless true Ref.w0 []
           (ErrOther "empty address string is not allowed"));
    reflexivity.
Defined.

Lemma fail_fast_witness :
  let res :=
    run failingCreateHook Ref.D 100 Unbonded (Ref.V Bonded) true Ref.w0 in
  skipn 4 (logOf res) = []
  /\ exists dec err s,
       eventError
         (EvBeforeDelegationCreated Ref.D valbzV
            (Some (ErrOther "hook failed"))) = Some err
       /\ res = Returned (dec, Some err) s.
Proof.
  intros res.
  apply (fail_fast Ref.World failingCreateHook Ref.D 100 Unbonded
           (Ref.V Bonded) true Ref.w0 (firstn 3 (logOf res))
           (EvBeforeDelegationCreated Ref.D valbzV
              (Some (ErrOther "hook failed")))
           (skipn 4 (logOf res)));
    vm_compute; reflexivity.
Defined.

Lemma success_went_through_witness :
  let res := run Ref.quiet Ref.D 100 Unbonded (Ref.V Bonded) true Ref.w0 in
  existsb failed (logOf res) = false
  /\ exists pre v' d valbz,
       logOf res
       = pre ++ [EvAddValidatorTokensAndShares (Ref.V Bonded) 100
                   (v', mkDec (Some (100 * Ref.one)), None);
                 EvSetDelegation d None;
                 EvAfterDelegationModified Ref.D valbz None].
Proof.
  intros res.
  apply (success_went_through Ref.World Ref.quiet Ref.D 100 Unbonded
           (Ref.V Bonded) true Ref.w0 (mkDec (Some (100 * Ref.one)))
           (worldOf res, logOf res)).
  vm_compute; reflexivity.
Defined.

Lemma token_source_coarse_witness :
  run Ref.quiet Ref.D 100 Unbonded (Ref.V Bonded) true Ref.w0
  = run Ref.quiet Ref.D 100 Unspecified (Ref.V Bonded) true Ref.w0.
Proof.
  apply (proj1 (token_source_coarse Ref.World Ref.quiet Ref.D 100
                  (Ref.V Bonded) Ref.w0) Unbonded Unspecified);
    unfold Unbonded, Unspecified, Bonded; lia.
Defined.

Lemma ledger_coins_witness :
  ledgerCalls
    (logOf (run Ref.quiet Ref.D (-5) Unbonded (Ref.V Bonded) true Ref.w0))
  = []
  /\ exists d,
       In (EvBondDenom (d, None))
          (logOf (run Ref.quiet Ref.D 0 Bonded (Ref.V' Unbonding) false
                    Ref.w1))
       /\ ValidateDenom d = true /\ 0 <= 0
       /\ coinsOf
            (EvSendCoinsFromModuleToModule BondedPoolName NotBondedPoolName
               [] None)
          = coinSet d 0.
Proof.
  split.
  - apply (proj2 (ledger_coins Ref.World Ref.quiet Ref.D (-5) Unbonded
                    (Ref.V Bonded) true Ref.w0)).
    lia.
  - apply (proj1 (ledger_coins Ref.World Ref.quiet Ref.D 0 Bonded
                    (Ref.V' Unbonding) false Ref.w1)).
    + vm_compute; auto 10.
    + reflexivity.
Defined.

Lemma panic_before_persistence_witness :
  let res := run Ref.quiet Ref.D (-5) Unbonded (Ref.V Bonded) true Ref.w0 in
  (forall e, In e (logOf res) -> (stage e < 7)%nat)
  /\ In "NewCoin"
       ["delegation token source cannot be bonded";
        "invalid validator status";
        "unknown token source bond status";
        "NewCoin"; "LegacyDec.Add"]
  /\ ("NewCoin" <> "LegacyDec.Add" ->
      ledgerCalls (logOf res) = []
      /\ filter isStoreWrite (logOf res) = []).
Proof.
  intros res.
  apply (panic_before_persistence Ref.World Ref.quiet Ref.D (-5) Unbonded
           (Ref.V Bonded) true Ref.w0 "NewCoin" (worldOf res, logOf res)).
  vm_compute; reflexivity.
Defined.

Lemma create_path_by_root_cause_witness :
  let log :=
    logOf (run wrappingStore Ref.D 100 Unbonded (Ref.V Bonded) true Ref.w0) in
  exists r post', skipn 2 log = EvBytesToString Ref.D r :: post'.
Proof.
  intros log.
  apply (proj1 (create_path_by_root_cause Ref.World wrappingStore Ref.D 100
                  Unbonded (Ref.V Bonded) true Ref.w0 (firstn 1 log) valbzV
                  (mkDelegation "" "" LegacyDecNil)
                  (ErrWrap "store" ErrNoDelegation) (skipn 2 log)
                  ltac:(vm_compute; reflexivity)));
    reflexivity.
Defined.
